(** * FloatChat: ingestion pipeline and map query

    A shallow embedding of [ingest_data.py] (schema manager, NetCDF parser,
    dedup gate, bulk loader) and of [app.py]: the cached bounding-box query
    and the map tab that issues it, the metrics shown for a result, the
    profile plot and the chat tab.

    The program is glue code around libraries.  What the program itself
    decides (which columns are selected, which rows are dropped, when the
    insert is issued, what is put into [location], where the transaction
    begins and ends) is written out as executable definitions.  What the
    libraries and the storage engine decide (whether a file opens, how bytes
    decode, whether the engine accepts a row, when two geometries intersect,
    which option the user selects, what the hosted agent answers) is taken as
    a variable of the section [Collaborators]. *)

From Stdlib Require Import ZArith String Ascii SpecFloat Lia.
From Stdlib.Strings Require Import Byte.
From stdpp Require Import base option list strings gmap sorting.

Local Open Scope string_scope.
Local Open Scope Z_scope.
Local Open Scope list_scope.

(* ================================================================== *)
(** * Values *)
(* ================================================================== *)

(** A float64 is an IEEE-754 value of the standard library's [spec_float];
    pandas uses NaN as the missing float. *)
Abbreviation float := spec_float.
Abbreviation NaN := S754_nan.

#[global] Instance float_eq_dec : EqDecision float.
Proof. solve_decision. Defined.

#[global] Instance byte_eq_dec : EqDecision byte := Byte.byte_eq_dec.

(** What a cell of a DataFrame (or a Python variable bound to one) holds. *)
Inductive cell :=
| Num (x : float)          (* float64; NaN is the missing value *)
| Time (t : option Z)      (* datetime64[ns] as nanoseconds since the epoch; None is NaT *)
| Str (s : string)         (* str *)
| Bytes (b : list byte).   (* bytes *)

#[global] Instance cell_eq_dec : EqDecision cell.
Proof. solve_decision. Defined.

(** pandas.isna *)
Definition isna (c : cell) : bool :=
  match c with
  | Num NaN => true
  | Time None => true
  | _ => false
  end.

(** The exceptions the scripts can meet. *)
Inductive exn :=
| OpenError (reason : string)        (* xr.open_dataset failed: missing or unreadable file *)
| AttributeError (name : string)
| IndexError
| UnicodeDecodeError
| KeyError (key : string)
| KeyError_not_in_index (missing : list string)  (* df[[...]]: the labels that are no column *)
| TypeError
| ValueError
| UndefinedTable (name : string)     (* storage: relation does not exist *)
| DataError (column : string)        (* storage: a bound value does not fit its column *)
| IntegrityError.                    (* storage: the engine rejects the row *)

#[global] Instance exn_eq_dec : EqDecision exn.
Proof. solve_decision. Defined.

(** A computation that returns or raises. *)
Inductive outcome (A : Type) :=
| Ok (a : A)
| Raise (e : exn).
Arguments Ok {A} a.
Arguments Raise {A} e.

#[global] Instance outcome_ret : MRet outcome := fun A a => Ok a.
#[global] Instance outcome_bind : MBind outcome := fun A B f m =>
  match m with
  | Ok a => f a
  | Raise e => Raise e
  end.

(* ================================================================== *)
(** * DataFrames *)
(* ================================================================== *)

(** A DataFrame, row by row: the column labels and, for each row, one cell
    per column. *)
Record DataFrame := {
  df_columns : list string;
  df_rows : list (list cell)
}.

(** Position of the first column carrying a label. *)
Fixpoint get_loc (name : string) (labels : list string) : option nat :=
  match labels with
  | [] => None
  | l :: labels' => if decide (l = name) then Some 0%nat else S <$> get_loc name labels'
  end.

(** [row[name]] on one row (a Series indexed by the column labels, which are
    distinct in every frame the scripts build). *)
Definition row_getitem (labels : list string) (row : list cell) (name : string)
  : outcome cell :=
  match get_loc name labels with
  | Some i => match row !! i with
              | Some c => Ok c
              | None => Raise (KeyError name)
              end
  | None => Raise (KeyError name)
  end.

Definition is_column (labels : list string) (name : string) : bool :=
  match get_loc name labels with
  | Some _ => true
  | None => false
  end.

(** [Index.unique()]: each label once, in the order of first appearance. *)
Fixpoint unique_labels (seen names : list string) : list string :=
  match names with
  | [] => []
  | n :: names' =>
      if decide (n ∈ seen) then unique_labels seen names'
      else n :: unique_labels (n :: seen) names'
  end.

(** The labels asked for that are no column. *)
Definition not_found (labels names : list string) : list string :=
  unique_labels [] (List.filter (fun n => negb (is_column labels n)) names).

(** [df[[n1; ...; nk]]]: the positions of the labels.  When some of them are
    no column, pandas looks all of them up and raises one KeyError that
    names every label that is no column, each once and in the order asked
    ("[...] not in index"; "None of [...] are in the [columns]" when no
    label is a column). *)
Definition locate (labels : list string) (names : list string) : outcome (list nat) :=
  match not_found labels names with
  | [] => Ok (omap (fun n => get_loc n labels) names)
  | missing => Raise (KeyError_not_in_index missing)
  end.

Definition take_cells (ixs : list nat) (row : list cell) : list cell :=
  (fun i => default (Num NaN) (row !! i)) <$> ixs.

Definition getitem_columns (df : DataFrame) (names : list string) : outcome DataFrame :=
  ixs ← locate (df_columns df) names;
  Ok {| df_columns := names; df_rows := take_cells ixs <$> df_rows df |}.

(** [df[name]]: the cells of one column. *)
Definition getitem (df : DataFrame) (name : string) : outcome (list cell) :=
  match get_loc name (df_columns df) with
  | Some i => Ok ((fun row => default (Num NaN) (row !! i)) <$> df_rows df)
  | None => Raise (KeyError name)
  end.

(** [df.rename(columns=mapping)]: labels outside the mapping are kept. *)
Fixpoint new_label (mapping : list (string * string)) (l : string) : string :=
  match mapping with
  | [] => l
  | (k, v) :: mapping' => if decide (k = l) then v else new_label mapping' l
  end.

Definition rename (mapping : list (string * string)) (df : DataFrame) : DataFrame :=
  {| df_columns := new_label mapping <$> df_columns df; df_rows := df_rows df |}.

(** [df[name] = v] with a scalar [v]: an existing column is overwritten, a new
    one is appended on the right. *)
Definition setitem (df : DataFrame) (name : string) (v : cell) : DataFrame :=
  match get_loc name (df_columns df) with
  | Some i => {| df_columns := df_columns df; df_rows := (fun row => <[i := v]> row) <$> df_rows df |}
  | None => {| df_columns := df_columns df ++ [name]; df_rows := (fun row => row ++ [v]) <$> df_rows df |}
  end.

(** A row survives [dropna] when none of its cells is missing. *)
Definition complete (row : list cell) : bool := forallb (fun c => negb (isna c)) row.

(** [df.dropna()] *)
Definition dropna (df : DataFrame) : DataFrame :=
  {| df_columns := df_columns df; df_rows := List.filter complete (df_rows df) |}.

(** [df.empty]: some axis has length zero. *)
Definition empty (df : DataFrame) : bool :=
  match df_columns df, df_rows df with
  | _ :: _, _ :: _ => false
  | _, _ => true
  end.

(** [len(df)] *)
Definition len (df : DataFrame) : nat := length (df_rows df).

(** [series.iloc[0]] *)
Definition iloc0 (s : list cell) : outcome cell :=
  match s with
  | c :: _ => Ok c
  | [] => Raise IndexError
  end.

(** Order of two cells of one kind, as Python compares them; cells of
    different kinds do not compare. *)
Fixpoint bytes_ltb (a b : list byte) : bool :=
  match a, b with
  | _, [] => false
  | [], _ :: _ => true
  | x :: a', y :: b' =>
      if (Byte.to_N x <? Byte.to_N y)%N then true
      else if (Byte.to_N y <? Byte.to_N x)%N then false
      else bytes_ltb a' b'
  end.

Definition cell_ltb (a b : cell) : outcome bool :=
  match a, b with
  | Num x, Num y => Ok (SFltb x y)
  | Time (Some x), Time (Some y) => Ok (x <? y)
  | Str x, Str y => Ok (String.ltb x y)
  | Bytes x, Bytes y => Ok (bytes_ltb x y)
  | _, _ => Raise TypeError
  end.

(** [series.min()]: missing cells are skipped; the smallest of the others,
    the first one among equals.  An all-missing series gives the missing
    value. *)
Fixpoint min_from (m : cell) (s : list cell) : outcome cell :=
  match s with
  | [] => Ok m
  | c :: s' => lt ← cell_ltb c m; min_from (if lt : bool then c else m) s'
  end.

Definition series_min (s : list cell) : outcome cell :=
  match List.filter (fun c => negb (isna c)) s with
  | [] => Ok (Time None)
  | c :: s' => min_from c s'
  end.

(* ================================================================== *)
(** * Storage *)
(* ================================================================== *)

(** Geometries of the storage engine: a point, and the rectangle that
    ST_MakeEnvelope builds. *)
Inductive geometry :=
| POINT (srid : Z) (x y : float)
| ENVELOPE (srid : Z) (xmin ymin xmax ymax : float).

#[global] Instance geometry_eq_dec : EqDecision geometry.
Proof. solve_decision. Defined.

(** Column types of the SQL toolkit. *)
Inductive ColumnType :=
| Integer
| SqlString (length : nat)
| DateTime
| Float
| Geometry (geometry_type : string) (srid : Z).

Record Column := {
  col_name : string;
  col_type : ColumnType;
  primary_key : bool;
  autoincrement : bool
}.

Definition Column_ (name : string) (type : ColumnType) : Column :=
  {| col_name := name; col_type := type; primary_key := false; autoincrement := false |}.

Record TableDef := {
  def_name : string;
  def_columns : list Column
}.

(** ingest_data.py, lines 23-33 *)
Definition argo_table : TableDef :=
  {| def_name := "argo_measurements";
     def_columns :=
       [ {| col_name := "id"; col_type := Integer; primary_key := true; autoincrement := true |};
         Column_ "float_id" (SqlString 20);
         Column_ "timestamp" DateTime;
         Column_ "latitude" Float;
         Column_ "longitude" Float;
         Column_ "pressure" Float;
         Column_ "temperature" Float;
         Column_ "salinity" Float;
         Column_ "location" (Geometry "POINT" 4326) ] |}.

Fixpoint column_type (cols : list Column) (name : string) : option ColumnType :=
  match cols with
  | [] => None
  | c :: cols' => if decide (col_name c = name) then Some (col_type c) else column_type cols' name
  end.

(** A stored measurement: one value per column of [argo_table]. *)
Record StoredRow := {
  row_id : Z;
  row_float_id : string;
  row_timestamp : Z;
  row_latitude : float;
  row_longitude : float;
  row_pressure : float;
  row_temperature : float;
  row_salinity : float;
  row_location : geometry
}.

(** The measurement table as the engine holds it: the columns it was created
    with and its rows, oldest first. *)
Record Table := {
  tbl_columns : list Column;
  tbl_rows : list StoredRow
}.

(** The database: the table [argo_measurements] if it exists, and the
    counter behind the auto-increment key.  The counter is a sequence of the
    engine: a rollback restores tables, not sequences. *)
Record Database := {
  argo_measurements : option Table;
  id_seq : Z
}.

Definition stored_rows (d : Database) : list StoredRow :=
  match argo_measurements d with
  | Some t => tbl_rows t
  | None => []
  end.

(** A bound parameter of the insert: a cell of the batch, or the text
    [f"POINT({x} {y})"], kept as its two interpolated values. *)
Inductive param :=
| Val (c : cell)
| POINT_text (x y : cell).

#[global] Instance param_eq_dec : EqDecision param.
Proof. solve_decision. Defined.

(** What the script asks of the storage engine, in order. *)
Inductive Event :=
| HasTable (name : string)
| CreateAll
| Connect
| Begin
| SelectCount (fid ts : cell)
| InsertMany (records : list (gmap string param))
| Commit
| Rollback
| Close.

(** The lines the script prints. *)
Inductive Message :=
| Opening_NetCDF_file (file_path : string)
| Successfully_parsed (n : nat) (platform_number : string)
| Error_parsing_file (file_path : string) (e : exn)
| Table_not_found_Creating_table
| Table_created_successfully
| Table_already_exists
| Data_already_exists_Skipping_insertion (float_id : cell)
| Inserting_new_records (n : nat)
| Data_insertion_complete
| An_error_occurred_during_ingestion (e : exn).

(* ================================================================== *)
(** * The script's effects *)
(* ================================================================== *)

Record World := {
  db : Database;
  stdout : list Message;
  events : list Event
}.

(** State passing with exceptions: the world is threaded through also when
    an exception is raised. *)
Definition M (A : Type) : Type := World → outcome A * World.

#[global] Instance M_ret : MRet M := fun A a w => (Ok a, w).
#[global] Instance M_bind : MBind M := fun A B f m w =>
  match m w with
  | (Ok a, w') => f a w'
  | (Raise e, w') => (Raise e, w')
  end.

Definition lift {A} (r : outcome A) : M A := fun w => (r, w).

Definition step {A} (f : World → outcome A * World) : M A := f.

Definition print (m : Message) : M unit := fun w =>
  (Ok tt, {| db := db w; stdout := stdout w ++ [m]; events := events w |}).

Definition emit (e : Event) : M unit := fun w =>
  (Ok tt, {| db := db w; stdout := stdout w; events := events w ++ [e] |}).

Definition set_db (d : Database) (w : World) : World :=
  {| db := d; stdout := stdout w; events := events w |}.

(** [try: body except Exception as e: handler(e)] *)
Definition try_except {A} (body : M A) (handler : exn → M A) : M A := fun w =>
  match body w with
  | (Ok a, w') => (Ok a, w')
  | (Raise e, w') => handler e w'
  end.

(** [with engine.connect() as connection: body]: the connection is closed on
    both ways out. *)
Definition with_connect {A} (body : M A) : M A := fun w =>
  match (emit Connect ;; body) w with
  | (r, w') => (r, snd (emit Close w'))
  end.

(** [with connection.begin() as transaction: body]: commit when the body
    returns; when it raises, the tables are put back as they were at the
    begin and the exception goes on. *)
Definition with_begin {A} (body : M A) : M A := fun w =>
  let snapshot := argo_measurements (db w) in
  match (emit Begin ;; body) w with
  | (Ok a, w') => (Ok a, snd (emit Commit w'))
  | (Raise e, w') =>
      (Raise e,
       snd (emit Rollback
              (set_db {| argo_measurements := snapshot; id_seq := id_seq (db w') |} w')))
  end.

(* ================================================================== *)
(** * NetCDF files *)
(* ================================================================== *)

(** An opened dataset, as far as the script looks at it: the values of the
    variable PLATFORM_NUMBER (None when the file has no such variable) and
    the frame that [ds.to_dataframe().reset_index()] gives, one column per
    variable and coordinate of the file. *)
Record Dataset := {
  PLATFORM_NUMBER : option (list cell);
  to_dataframe : DataFrame
}.

(** [str.strip()], on the ASCII white space. *)
Definition isspace (c : ascii) : bool :=
  let n := N_of_ascii c in
  ((9 <=? n) && (n <=? 13) || (28 <=? n) && (n <=? 32))%N.

Fixpoint lstrip (s : string) : string :=
  match s with
  | String c s' => if isspace c then lstrip s' else s
  | EmptyString => EmptyString
  end.

Definition strip (s : string) : string :=
  String.rev (lstrip (String.rev (lstrip s))).

(** The six variables the parser projects, and their names in the data
    model (lines 47-58). *)
Definition core_variables : list string :=
  ["JULD"; "LATITUDE"; "LONGITUDE"; "PRES_ADJUSTED"; "TEMP_ADJUSTED"; "PSAL_ADJUSTED"].

Definition core_names : list (string * string) :=
  [("JULD", "timestamp"); ("LATITUDE", "latitude"); ("LONGITUDE", "longitude");
   ("PRES_ADJUSTED", "pressure"); ("TEMP_ADJUSTED", "temperature");
   ("PSAL_ADJUSTED", "salinity")].

Definition scalar_fields : list string :=
  ["timestamp"; "latitude"; "longitude"; "pressure"; "temperature"; "salinity"].

Section Collaborators.

(** [xr.open_dataset]: what the file system holds under a path. *)
Variable open_dataset : string → outcome Dataset.
(** [bytes.decode('utf-8')]; None is a UnicodeDecodeError. *)
Variable decode_utf8 : list byte → option string.
(** Whether the storage engine takes a row: column lengths, geometry
    syntax, constraints. *)
Variable engine_accepts : StoredRow → bool.
(** The engine's ST_Intersects. *)
Variable ST_Intersects : geometry → geometry → bool.

(* ---------------------------------------------------------------- *)
(** ** ingest_data.py: the parser (lines 36-72) *)
(* ---------------------------------------------------------------- *)

(** [ds.PLATFORM_NUMBER.values[0].decode('utf-8').strip()] *)
Definition platform_number_of (ds : Dataset) : outcome string :=
  values ← match PLATFORM_NUMBER ds with
           | Some values => Ok values
           | None => Raise (AttributeError "PLATFORM_NUMBER")
           end;
  first ← iloc0 values;
  match first with
  | Bytes b => match decode_utf8 b with
               | Some s => Ok (strip s)
               | None => Raise UnicodeDecodeError
               end
  | _ => Raise (AttributeError "decode")
  end.

(** Lines 39-65: what the [with] block computes before it prints. *)
Definition read_core_data (file_path : string) : outcome (string * DataFrame) :=
  ds ← open_dataset file_path;
  platform_number ← platform_number_of ds;
  let df := to_dataframe ds in
  core_data ← getitem_columns df core_variables;
  let core_data := rename core_names core_data in
  let core_data := setitem core_data "float_id" (Str platform_number) in
  let core_data := dropna core_data in
  Ok (platform_number, core_data).

(** The body of the [try] of [parse_argo_file]. *)
Definition parse_body (file_path : string) : M (option DataFrame) :=
  '(platform_number, core_data) ← lift (read_core_data file_path);
  print (Successfully_parsed (len core_data) platform_number) ;;
  mret (Some core_data).

(** None is Python's [None]. *)
Definition parse_argo_file (file_path : string) : M (option DataFrame) :=
  print (Opening_NetCDF_file file_path) ;;
  try_except (parse_body file_path)
    (fun e => print (Error_parsing_file file_path e) ;; mret None).

(* ---------------------------------------------------------------- *)
(** ** The storage engine, as the script drives it *)
(* ---------------------------------------------------------------- *)

(** The statements and calls that the script sends (the inspector's
    [has_table], [create_all], the COUNT of line 100, the insert of line
    116), with their meaning on the database above. *)

(** [inspector.has_table(name)] *)
Definition has_table (name : string) : M bool :=
  emit (HasTable name) ;;
  step (fun w => (Ok (bool_decide (name = def_name argo_table)
                      && bool_decide (is_Some (argo_measurements (db w)))), w)).

(** [metadata.create_all(engine)]: creates the tables of the metadata that
    do not exist yet. *)
Definition create_all : M unit :=
  emit CreateAll ;;
  step (fun w =>
    match argo_measurements (db w) with
    | Some _ => (Ok tt, w)
    | None =>
        (Ok tt,
         set_db {| argo_measurements :=
                     Some {| tbl_columns := def_columns argo_table; tbl_rows := [] |};
                   id_seq := id_seq (db w) |} w)
    end).

(** [SELECT COUNT( * ) FROM argo_measurements WHERE float_id = :fid AND
    timestamp >= :ts], with [.scalar()]. *)
Definition count_matching (fid : string) (ts : Z) (rows : list StoredRow) : Z :=
  Z.of_nat (length (List.filter
    (fun r => bool_decide (row_float_id r = fid) && (ts <=? row_timestamp r)) rows)).

Definition select_count (fid ts : cell) (d : Database) : outcome Z :=
  match argo_measurements d, fid, ts with
  | None, _, _ => Raise (UndefinedTable "argo_measurements")
  | Some t, Str fid, Time (Some ts) => Ok (count_matching fid ts (tbl_rows t))
  | Some _, Str _, _ => Raise (DataError "timestamp")
  | Some _, _, _ => Raise (DataError "float_id")
  end.

Definition execute_count (fid ts : cell) : M Z :=
  emit (SelectCount fid ts) ;;
  step (fun w => (select_count fid ts (db w), w)).

(** Binding one record of the insert to the columns of [argo_table]. *)
Definition bind_string (name : string) (record : gmap string param) : outcome string :=
  match record !! name with
  | Some (Val (Str s)) => Ok s
  | _ => Raise (DataError name)
  end.

Definition bind_datetime (name : string) (record : gmap string param) : outcome Z :=
  match record !! name with
  | Some (Val (Time (Some t))) => Ok t
  | _ => Raise (DataError name)
  end.

Definition bind_float (name : string) (record : gmap string param) : outcome float :=
  match record !! name with
  | Some (Val (Num x)) => Ok x
  | _ => Raise (DataError name)
  end.

(** The text of a point becomes a geometry with the SRID the column is
    declared with: a geometry column holds no point of another SRID. *)
Definition bind_geometry (name : string) (record : gmap string param) : outcome geometry :=
  match column_type (def_columns argo_table) name, record !! name with
  | Some (Geometry _ srid), Some (POINT_text (Num x) (Num y)) => Ok (POINT srid x y)
  | _, _ => Raise (DataError name)
  end.

Definition bind_record (id : Z) (record : gmap string param) : outcome StoredRow :=
  float_id ← bind_string "float_id" record;
  timestamp ← bind_datetime "timestamp" record;
  latitude ← bind_float "latitude" record;
  longitude ← bind_float "longitude" record;
  pressure ← bind_float "pressure" record;
  temperature ← bind_float "temperature" record;
  salinity ← bind_float "salinity" record;
  location ← bind_geometry "location" record;
  Ok {| row_id := id; row_float_id := float_id; row_timestamp := timestamp;
        row_latitude := latitude; row_longitude := longitude;
        row_pressure := pressure; row_temperature := temperature;
        row_salinity := salinity; row_location := location |}.

(** One row of the bulk insert: it takes the next key, and is appended to
    the table inside the open transaction unless it does not bind or the
    engine rejects it. *)
Definition insert_row (record : gmap string param) (d : Database)
  : outcome unit * Database :=
  match argo_measurements d with
  | None => (Raise (UndefinedTable "argo_measurements"), d)
  | Some t =>
      let id := id_seq d in
      match bind_record id record with
      | Raise e => (Raise e, {| argo_measurements := Some t; id_seq := id + 1 |})
      | Ok r =>
          if engine_accepts r then
            (Ok tt,
             {| argo_measurements :=
                  Some {| tbl_columns := tbl_columns t; tbl_rows := tbl_rows t ++ [r] |};
                id_seq := id + 1 |})
          else
            (Raise IntegrityError, {| argo_measurements := Some t; id_seq := id + 1 |})
      end
  end.

Fixpoint insert_rows (records : list (gmap string param)) (d : Database)
  : outcome unit * Database :=
  match records with
  | [] => (Ok tt, d)
  | record :: records' =>
      match insert_row record d with
      | (Ok _, d') => insert_rows records' d'
      | (Raise e, d') => (Raise e, d')
      end
  end.

(** [connection.execute(argo_table.insert(), records)]: one statement for
    the whole list; rows go in one after the other and the first one that
    fails ends the statement, the rows before it still in the transaction. *)
Definition execute_insert (records : list (gmap string param)) : M unit :=
  emit (InsertMany records) ;;
  step (fun w =>
    match insert_rows records (db w) with
    | (r, d) => (r, set_db d w)
    end).

(* ---------------------------------------------------------------- *)
(** ** ingest_data.py: the main block (lines 75-120) *)
(* ---------------------------------------------------------------- *)

(** [row.to_dict()]; a label met twice keeps its last cell. *)
Definition to_dict (labels : list string) (row : list cell) : gmap string param :=
  list_to_map (reverse (zip labels (Val <$> row))).

(** Lines 111-112. *)
Definition make_record (labels : list string) (row : list cell)
  : outcome (gmap string param) :=
  let record := to_dict labels row in
  longitude ← row_getitem labels row "longitude";
  latitude ← row_getitem labels row "latitude";
  Ok (<["location" := POINT_text longitude latitude]> record).

(** Lines 109-113: the loop over [argo_data.iterrows()]. *)
Fixpoint make_records (labels : list string) (rows : list (list cell))
  : outcome (list (gmap string param)) :=
  match rows with
  | [] => Ok []
  | row :: rows' =>
      record ← make_record labels row;
      records_to_insert ← make_records labels rows';
      Ok (record :: records_to_insert)
  end.

(** Lines 107-117: the bulk loader, the [else] branch of the gate. *)
Definition load_batch (argo_data : DataFrame) : M unit :=
  print (Inserting_new_records (len argo_data)) ;;
  records_to_insert ← lift (make_records (df_columns argo_data) (df_rows argo_data));
  execute_insert records_to_insert ;;
  print Data_insertion_complete.

(** Lines 95-96: what the gate asks about. *)
Definition gate_parameters (argo_data : DataFrame) : outcome (cell * cell) :=
  timestamps ← getitem argo_data "timestamp";
  first_timestamp ← series_min timestamps;
  float_ids ← getitem argo_data "float_id";
  float_id ← iloc0 float_ids;
  Ok (first_timestamp, float_id).

(** Lines 95-117: the body of the transaction, dedup gate first. *)
Definition check_and_load (argo_data : DataFrame) : M unit :=
  '(first_timestamp, float_id) ← lift (gate_parameters argo_data);
  result ← execute_count float_id first_timestamp;
  if 0 <? result then print (Data_already_exists_Skipping_insertion float_id)
  else load_batch argo_data.

(** Lines 78-84: the schema manager. *)
Definition ensure_schema : M unit :=
  table_exists ← has_table "argo_measurements";
  if negb table_exists then
    print Table_not_found_Creating_table ;;
    create_all ;;
    print Table_created_successfully
  else print Table_already_exists.

(** [os.path.join('data', 'R2902347_001.nc')] *)
Definition file_path : string := "data/R2902347_001.nc".

(** Lines 77-117: the body of the outer [try]. *)
Definition main_body : M unit :=
  ensure_schema ;;
  argo_data ← parse_argo_file file_path;
  match argo_data with
  | Some argo_data =>
      if negb (empty argo_data) then
        with_connect (with_begin (check_and_load argo_data))
      else mret tt
  | None => mret tt
  end.

Definition main : M unit :=
  try_except main_body (fun e => print (An_error_occurred_during_ingestion e)).

(* ---------------------------------------------------------------- *)
(** ** app.py: the map explorer (lines 49-54 and 131-150) *)
(* ---------------------------------------------------------------- *)

(** The text of lines 139-147, kept as its four interpolated values. *)
Inductive Query :=
| SpatialQuery (min_lon min_lat max_lon max_lat : float).

#[global] Instance Query_eq_dec : EqDecision Query.
Proof. solve_decision. Defined.

(** The engine's ST_MakeEnvelope. *)
Definition ST_MakeEnvelope (xmin ymin xmax ymax : float) (srid : Z) : geometry :=
  ENVELOPE srid xmin ymin xmax ymax.

(** One tuple of the result: float_id, latitude, longitude, timestamp. *)
Definition tuple : Type := string * float * float * Z.

Definition tuple_timestamp (t : tuple) : Z := snd t.

Definition select_list (r : StoredRow) : tuple :=
  (row_float_id r, row_latitude r, row_longitude r, row_timestamp r).

(** ORDER BY timestamp DESC *)
Definition timestamp_desc (a b : tuple) : Prop := tuple_timestamp b ≤ tuple_timestamp a.

#[local] Instance timestamp_desc_dec a b : Decision (timestamp_desc a b).
Proof. unfold timestamp_desc. apply _. Defined.

(** The SELECT of lines 140-146, clause by clause: FROM and WHERE, the
    select list, DISTINCT, ORDER BY. *)
Definition select_spatial (q : Query) (rows : list StoredRow) : list tuple :=
  match q with
  | SpatialQuery min_lon min_lat max_lon max_lat =>
      let envelope := ST_MakeEnvelope min_lon min_lat max_lon max_lat 4326 in
      let matching := List.filter (fun r => ST_Intersects (row_location r) envelope) rows in
      let selected := select_list <$> matching in
      let distinct := remove_dups selected in
      merge_sort timestamp_desc distinct
  end.

(** [pd.read_sql]: the result set as a frame. *)
Definition tuple_cells (t : tuple) : list cell :=
  match t with
  | (float_id, latitude, longitude, timestamp) =>
      [Str float_id; Num latitude; Num longitude; Time (Some timestamp)]
  end.

Definition read_sql (q : Query) (d : Database) : outcome DataFrame :=
  match argo_measurements d with
  | None => Raise (UndefinedTable "argo_measurements")
  | Some t =>
      Ok {| df_columns := ["float_id"; "latitude"; "longitude"; "timestamp"];
            df_rows := tuple_cells <$> select_spatial q (tbl_rows t) |}
  end.

(** The state of the running app: the database it reads and the results
    that [st.cache_data] keeps, by query text. *)
Record AppState := {
  app_db : Database;
  cache_data : list (Query * DataFrame)
}.

Fixpoint cached (query : Query) (entries : list (Query * DataFrame)) : option DataFrame :=
  match entries with
  | [] => None
  | (q, df) :: entries' => if decide (q = query) then Some df else cached query entries'
  end.

(** [run_query], lines 49-54: a result already computed for the same text
    is returned as it is; otherwise the query goes to the engine and a
    result (not an exception) is kept. *)
Definition run_query (query : Query) (s : AppState) : outcome DataFrame * AppState :=
  match cached query (cache_data s) with
  | Some df => (Ok df, s)
  | None =>
      match read_sql query (app_db s) with
      | Ok df => (Ok df, {| app_db := app_db s; cache_data := (query, df) :: cache_data s |})
      | Raise e => (Raise e, s)
      end
  end.

(** Lines 132-134: the corners are read off the drawn ring. *)
Definition list_getitem {A} (l : list A) (i : nat) : outcome A :=
  match l !! i with
  | Some x => Ok x
  | None => Raise IndexError
  end.

Definition unpack_pair (p : list float) : outcome (float * float) :=
  match p with
  | [a; b] => Ok (a, b)
  | _ => Raise ValueError
  end.

Definition drawn_query (coordinates : list (list (list float))) : outcome Query :=
  bounds ← list_getitem coordinates 0;
  corner ← list_getitem bounds 0;
  '(min_lon, min_lat) ← unpack_pair corner;
  corner ← list_getitem bounds 2;
  '(max_lon, max_lat) ← unpack_pair corner;
  Ok (SpatialQuery min_lon min_lat max_lon max_lat).

(** What the tab shows under "Query Results". *)
Inductive Shown :=
| Results (result_df : DataFrame)
| No_floats_found
| A_database_error_occurred (e : exn).

(** Lines 131-175, up to the table of results; None when nothing is drawn.
    Reading the corners is outside the [try]. *)
Definition explore_by_map (last_active_drawing : option (list (list (list float))))
    (s : AppState) : outcome (option Shown) * AppState :=
  match last_active_drawing with
  | None => (Ok None, s)
  | Some coordinates =>
      match drawn_query coordinates with
      | Raise e => (Raise e, s)
      | Ok query =>
          match run_query query s with
          | (Ok result_df, s') =>
              (Ok (Some (if negb (empty result_df) then Results result_df
                         else No_floats_found)), s')
          | (Raise e, s') => (Ok (Some (A_database_error_occurred e)), s')
          end
      end
  end.

(* ---------------------------------------------------------------- *)
(** ** app.py: what is shown for a result with rows (lines 152-162) *)
(* ---------------------------------------------------------------- *)

(** [series.unique()]: the values in the order of their first appearance. *)
Fixpoint unique_from (seen s : list cell) : list cell :=
  match s with
  | [] => []
  | c :: s' =>
      if decide (c ∈ seen) then unique_from seen s'
      else c :: unique_from (c :: seen) s'
  end.

Definition unique (s : list cell) : list cell := unique_from [] s.

(** [series.nunique()]: the number of distinct values, the missing ones
    left out. *)
Definition nunique (s : list cell) : nat :=
  length (unique (List.filter (fun c => negb (isna c)) s)).

(** The two metrics (lines 155-156) and the options of the float selector
    (line 162). *)
Record Panel := {
  floats_found : nat;
  total_measurements : nat;
  float_options : list cell
}.

Definition results_panel (result_df : DataFrame) : outcome Panel :=
  float_ids ← getitem result_df "float_id";
  Ok {| floats_found := nunique float_ids;
        total_measurements := len result_df;
        float_options := unique float_ids |}.

(* ---------------------------------------------------------------- *)
(** ** app.py: the profile plot (lines 56-70) *)
(* ---------------------------------------------------------------- *)

(** [st.selectbox] with the user in front of it: the option chosen. *)
Variable selectbox : list string → option string.
(** [str.title()] *)
Variable str_title : string → string.

(** Line 58: the columns that are never offered for plotting. *)
Definition not_plotted : list string :=
  ["id"; "float_id"; "timestamp"; "latitude"; "longitude"; "location"; "pressure"].

Definition plottable (columns : list string) : list string :=
  List.filter (fun col => negb (bool_decide (col ∈ not_plotted))) columns.

(** [s.replace('_', ' ')] *)
Fixpoint replace_underscores (s : string) : string :=
  match s with
  | EmptyString => EmptyString
  | String c s' =>
      String (if decide (c = "_"%char) then " "%char else c) (replace_underscores s')
  end.

(** The line plot that is asked of the plotting library: the arguments of
    [px.line] and the range of the y axis. *)
Record Figure := {
  fig_data : DataFrame;
  fig_x : string;
  fig_y : string;
  fig_title : string;
  fig_labels : gmap string string;
  fig_yaxis_autorange : option string
}.

(** What [create_profile_plot] does: it warns and returns None, returns None
    without a word, or returns a figure. *)
Inductive Plot :=
| No_plottable_data_columns_found
| No_variable_selected
| Plotted (fig : Figure).

Definition create_profile_plot (df : DataFrame) (y_axis : string) : Plot :=
  let columns := plottable (df_columns df) in
  match columns with
  | [] => No_plottable_data_columns_found
  | _ :: _ =>
      match selectbox columns with
      | Some (String c x) =>
          let x_axis := String c x in
          Plotted
            {| fig_data := df; fig_x := x_axis; fig_y := y_axis;
               fig_title := str_title (replace_underscores x_axis) +:+ " vs. Pressure";
               fig_labels := <[y_axis := "Pressure (dbar)"]> (<[x_axis := str_title x_axis]> ∅);
               fig_yaxis_autorange := Some "reversed" |}
      | _ => No_variable_selected
      end
  end.

(* ---------------------------------------------------------------- *)
(** ** app.py: the chat tab (lines 79-110) *)
(* ---------------------------------------------------------------- *)

(** [agent_executor.invoke({"input": p})["output"]]: the hosted agent. *)
Variable agent_invoke : string → outcome string.

Inductive Role :=
| user
| assistant.

(** The content of a message: a text, or [f"An error occurred: {e}"]. *)
Inductive Content :=
| Markdown (text : string)
| An_error_occurred (e : exn).

Record ChatMessage := {
  role : Role;
  content : Content
}.

(** Lines 97-102. *)
Definition full_prompt (prompt : string) : string :=
  "You are an expert oceanographer's assistant. Based on the user's question, "
  +:+ "First, think about what you need to do. Then, write and execute a SQL query to get the necessary data. "
  +:+ "Finally, answer the user's question based on the query results. "
  +:+ "Question: '" +:+ prompt +:+ "'".

(** Lines 96-110: the assistant's message for a prompt. *)
Definition assistant_message (prompt : string) : ChatMessage :=
  match agent_invoke (full_prompt prompt) with
  | Ok response_output => {| role := assistant; content := Markdown response_output |}
  | Raise e => {| role := assistant; content := An_error_occurred e |}
  end.

(** One run of the tab: the messages of the session (None before the first
    run), what the chat input gives (None when nothing was sent), and the
    messages of the session afterwards. *)
Definition chat_tab (session_messages : option (list ChatMessage))
    (chat_input : option string) : list ChatMessage :=
  let messages := default [] session_messages in
  match chat_input with
  | Some (String c p) =>
      let prompt := String c p in
      messages ++ [ {| role := user; content := Markdown prompt |};
                    assistant_message prompt ]
  | _ => messages
  end.

(* ================================================================== *)
(** * Vocabulary of the properties *)
(* ================================================================== *)

(** The world after more lines are printed, and after more requests are
    made. *)
Definition add_stdout (ms : list Message) (w : World) : World :=
  {| db := db w; stdout := stdout w ++ ms; events := events w |}.

Definition add_events (es : list Event) (w : World) : World :=
  {| db := db w; stdout := stdout w; events := events w ++ es |}.

(** The table that [create_all] creates. *)
Definition created_table : Table :=
  {| tbl_columns := def_columns argo_table; tbl_rows := [] |}.

(** The cell a source row holds under a variable of the file (missing when
    the row has no such cell). *)
Definition source_cell (labels : list string) (src : list cell) (v : string) : cell :=
  match get_loc v labels with
  | Some i => default (Num NaN) (src !! i)
  | None => Num NaN
  end.

(** A source row lacks one of the six variables. *)
Definition has_missing (labels : list string) (src : list cell) : bool :=
  existsb (fun v => isna (source_cell labels src v)) core_variables.

(** The row of the batch that a source row gives. *)
Definition batch_row (labels : list string) (platform_number : string) (src : list cell)
  : list cell :=
  (source_cell labels src <$> core_variables) ++ [Str platform_number].

(** The file cannot be opened, or it opens and lacks PLATFORM_NUMBER or one
    of the six projected variables. *)
Definition cannot_parse (path : string) : Prop :=
  ∀ ds, open_dataset path = Ok ds →
    PLATFORM_NUMBER ds = None ∨
    ∃ v, v ∈ core_variables ∧ get_loc v (df_columns (to_dataframe ds)) = None.

(** What the schema manager asks of the engine. *)
Definition schema_events (d : Database) : list Event :=
  match argo_measurements d with
  | Some _ => [HasTable "argo_measurements"]
  | None => [HasTable "argo_measurements"; CreateAll]
  end.

(** The engine has taken a record as a row. *)
Definition stores (record : gmap string param) (r : StoredRow) : Prop :=
  ∃ id, bind_record id record = Ok r ∧ engine_accepts r = true.

(** The table with rows appended. *)
Definition appended (t : Table) (rows : list StoredRow) : Table :=
  {| tbl_columns := tbl_columns t; tbl_rows := tbl_rows t ++ rows |}.

(** Where a run stands with respect to its transaction: outside any, or
    inside one, with the count query already made in it or not. *)
Inductive tx_state :=
| Idle
| InTx (counted : bool).

(** The discipline of check-then-act over a sequence of requests: the count
    query and the insert are made inside a transaction only, the insert only
    after a count query of the same transaction, transactions do not nest and
    every one is ended by a commit or a rollback. *)
Fixpoint check_then_act (s : tx_state) (evs : list Event) : bool :=
  match evs with
  | [] => match s with Idle => true | InTx _ => false end
  | ev :: evs' =>
      match ev, s with
      | Begin, Idle => check_then_act (InTx false) evs'
      | Begin, InTx _ => false
      | SelectCount _ _, InTx _ => check_then_act (InTx true) evs'
      | SelectCount _ _, Idle => false
      | InsertMany _, InTx true => check_then_act (InTx true) evs'
      | InsertMany _, _ => false
      | (Commit | Rollback), InTx _ => check_then_act Idle evs'
      | (Commit | Rollback), Idle => false
      | (HasTable _ | CreateAll | Connect | Close), _ => check_then_act s evs'
      end
  end.

(** The columns of a batch that the parser returns. *)
Definition batch_labels : list string := scalar_fields ++ ["float_id"].

(** Six cells that are not missing and the float identifier. *)
Definition batch_row_shaped (platform_number : string) (row : list cell) : Prop :=
  ∃ ts lat lon pres temp sal,
    row = [ts; lat; lon; pres; temp; sal; Str platform_number] ∧
    isna ts = false ∧ isna lat = false ∧ isna lon = false ∧
    isna pres = false ∧ isna temp = false ∧ isna sal = false.

(** A frame with those columns and such rows. *)
Definition batch_shaped (platform_number : string) (argo_data : DataFrame) : Prop :=
  df_columns argo_data = batch_labels ∧
  Forall (batch_row_shaped platform_number) (df_rows argo_data).

(** The record that lines 111-112 make of a row of such a batch. *)
Definition record_of (row : list cell) : gmap string param :=
  match row with
  | [ts; lat; lon; pres; temp; sal; fid] =>
      <["location" := POINT_text lon lat]> (to_dict batch_labels row)
  | _ => ∅
  end.

(** The rows that the engine stores of a parsed batch, cell by cell. *)
Definition stored_as (platform_number : string) (row : list cell) (r : StoredRow) : Prop :=
  ∃ id t a b p q s,
    row = [Time (Some t); Num a; Num b; Num p; Num q; Num s; Str platform_number] ∧
    r = {| row_id := id; row_float_id := platform_number; row_timestamp := t;
           row_latitude := a; row_longitude := b; row_pressure := p;
           row_temperature := q; row_salinity := s;
           row_location := POINT 4326 b a |}.

(** A row is in the drawn box, as the engine judges it. *)
Definition in_envelope (min_lon min_lat max_lon max_lat : float) (r : StoredRow) : Prop :=
  ST_Intersects (row_location r) (ENVELOPE 4326 min_lon min_lat max_lon max_lat) = true.

(* ================================================================== *)
(** ** Vocabulary of the further properties *)

(** The file opens, the first value of PLATFORM_NUMBER is bytes that decode,
    and the six projected variables are there. *)
Definition can_parse (path : string) : Prop :=
  ∃ ds b values s,
    open_dataset path = Ok ds ∧
    PLATFORM_NUMBER ds = Some (Bytes b :: values) ∧
    decode_utf8 b = Some s ∧
    Forall (fun v => is_Some (get_loc v (df_columns (to_dataframe ds)))) core_variables.

(** No ASCII white space at either end. *)
Definition trimmed (s : string) : Prop :=
  ∀ c, head (list_ascii_of_string s) = Some c ∨ last (list_ascii_of_string s) = Some c →
       isspace c = false.

(** No NaN in the five measured and positional floats of a stored row. *)
Definition populated (r : StoredRow) : Prop :=
  row_latitude r ≠ NaN ∧ row_longitude r ≠ NaN ∧ row_pressure r ≠ NaN ∧
  row_temperature r ≠ NaN ∧ row_salinity r ≠ NaN.

(** What the schema manager prints. *)
Definition schema_lines (d : Database) : list Message :=
  match argo_measurements d with
  | Some _ => [Table_already_exists]
  | None => [Table_not_found_Creating_table; Table_created_successfully]
  end.

(** The prompts that a sequence of chat inputs sends. *)
Definition sent_prompts (inputs : list (option string)) : list string :=
  inputs ≫= fun chat_input =>
    match chat_input with
    | Some (String c p) => [String c p]
    | _ => []
    end.

(** The two messages that a prompt adds. *)
Definition exchange (prompt : string) : list ChatMessage :=
  [ {| role := user; content := Markdown prompt |}; assistant_message prompt ].

(** The messages of the session after the tab has run once for each of the
    inputs, from a session without messages. *)
Definition chat_session (inputs : list (option string)) : option (list ChatMessage) :=
  foldl (fun session chat_input => Some (chat_tab session chat_input)) None inputs.

(** * A sample file and a sample engine *)
(* ================================================================== *)

(** An ASCII codec: bytes below 128 decode to themselves. *)
Definition ascii_decode (b : list byte) : option string :=
  if forallb (fun x => (Byte.to_N x <? 128)%N) b
  then Some (string_of_list_ascii (ascii_of_byte <$> b))
  else None.

(** An engine that enforces the length of [float_id]. *)
Definition varchar20 (r : StoredRow) : bool :=
  (String.length (row_float_id r) <=? 20)%nat.

(** An engine that takes only rows stamped 100 (the first sample of the file
    below, not the third). *)
Definition only_timestamp_100 (r : StoredRow) : bool :=
  bool_decide (row_timestamp r = 100).

(** A point intersects an envelope of its SRID when it lies between the
    corners. *)
Definition bbox_intersects (g envelope : geometry) : bool :=
  match g, envelope with
  | POINT srid x y, ENVELOPE srid' xmin ymin xmax ymax =>
      bool_decide (srid = srid')
      && SFleb xmin x && SFleb x xmax && SFleb ymin y && SFleb y ymax
  | _, _ => false
  end.

(** The float64 of a small positive integer. *)
Definition fl (m : positive) : float := S754_finite false m 0.

(** A file with three samples, the second without salinity. *)
Definition sample_frame : DataFrame :=
  {| df_columns := ["N_LEVELS"; "JULD"; "LATITUDE"; "LONGITUDE";
                    "PRES_ADJUSTED"; "TEMP_ADJUSTED"; "PSAL_ADJUSTED"];
     df_rows :=
       [ [Num (fl 1); Time (Some 100); Num (fl 10); Num (fl 80); Num (fl 5); Num (fl 20); Num (fl 35)];
         [Num (fl 2); Time (Some 50); Num (fl 10); Num (fl 80); Num (fl 6); Num (fl 19); Num NaN];
         [Num (fl 3); Time (Some 70); Num (fl 11); Num (fl 81); Num (fl 7); Num (fl 18); Num (fl 34)] ] |}.

Definition sample_file : Dataset :=
  {| PLATFORM_NUMBER := Some [Bytes [x32; x39; x30; x32; x33; x34; x37; x20]];
     to_dataframe := sample_frame |}.

Definition sample_fs (path : string) : outcome Dataset :=
  if decide (path = file_path) then Ok sample_file
  else Raise (OpenError "No such file or directory").

(** The batch that the parser makes of the sample file. *)
Definition sample_batch : DataFrame :=
  {| df_columns := ["timestamp"; "latitude"; "longitude"; "pressure";
                    "temperature"; "salinity"; "float_id"];
     df_rows :=
       [ [Time (Some 100); Num (fl 10); Num (fl 80); Num (fl 5); Num (fl 20); Num (fl 35); Str "2902347"];
         [Time (Some 70); Num (fl 11); Num (fl 81); Num (fl 7); Num (fl 18); Num (fl 34); Str "2902347"] ] |}.

(** A file system without the file. *)
Definition no_file (path : string) : outcome Dataset :=
  Raise (OpenError "No such file or directory").

(** A file that opens and has no variable PSAL_ADJUSTED. *)
Definition file_without_salinity : Dataset :=
  {| PLATFORM_NUMBER := Some [Bytes [x32; x39; x30; x32; x33; x34; x37; x20]];
     to_dataframe :=
       {| df_columns := ["JULD"; "LATITUDE"; "LONGITUDE"; "PRES_ADJUSTED"; "TEMP_ADJUSTED"];
          df_rows := [ [Time (Some 100); Num (fl 10); Num (fl 80); Num (fl 5); Num (fl 20)] ] |} |}.

Definition fs_without_salinity (path : string) : outcome Dataset := Ok file_without_salinity.

(** A file that opens and has neither TEMP_ADJUSTED nor PSAL_ADJUSTED. *)
Definition file_without_two_variables : Dataset :=
  {| PLATFORM_NUMBER := Some [Bytes [x32; x39; x30; x32; x33; x34; x37; x20]];
     to_dataframe :=
       {| df_columns := ["JULD"; "LATITUDE"; "LONGITUDE"; "PRES_ADJUSTED"];
          df_rows := [ [Time (Some 100); Num (fl 10); Num (fl 80); Num (fl 5)] ] |} |}.

Definition fs_without_two_variables (path : string) : outcome Dataset :=
  Ok file_without_two_variables.

(** A database without the measurement table, and nothing printed or asked
    yet. *)
Definition fresh : World :=
  {| db := {| argo_measurements := None; id_seq := 1 |}; stdout := []; events := [] |}.

(** The same with the table created. *)
Definition with_table : World := snd (ensure_schema fresh).

Definition stored_1 : StoredRow :=
  {| row_id := 1; row_float_id := "2902347"; row_timestamp := 100;
     row_latitude := fl 10; row_longitude := fl 80; row_pressure := fl 5;
     row_temperature := fl 20; row_salinity := fl 35;
     row_location := POINT 4326 (fl 80) (fl 10) |}.

Definition stored_2 : StoredRow :=
  {| row_id := 2; row_float_id := "2902347"; row_timestamp := 70;
     row_latitude := fl 11; row_longitude := fl 81; row_pressure := fl 7;
     row_temperature := fl 18; row_salinity := fl 34;
     row_location := POINT 4326 (fl 81) (fl 11) |}.

(** A table of four rows: the two of the sample batch, a second row at the
    place and time of the first, and a row of another float far east. *)
Definition stored_3 : StoredRow :=
  {| row_id := 3; row_float_id := "2902347"; row_timestamp := 100;
     row_latitude := fl 10; row_longitude := fl 80; row_pressure := fl 9;
     row_temperature := fl 15; row_salinity := fl 35;
     row_location := POINT 4326 (fl 80) (fl 10) |}.

Definition stored_4 : StoredRow :=
  {| row_id := 4; row_float_id := "1901234"; row_timestamp := 90;
     row_latitude := fl 10; row_longitude := fl 120; row_pressure := fl 5;
     row_temperature := fl 20; row_salinity := fl 35;
     row_location := POINT 4326 (fl 120) (fl 10) |}.

Definition sample_table : Table :=
  {| tbl_columns := def_columns argo_table;
     tbl_rows := [stored_2; stored_1; stored_3; stored_4] |}.

Definition sample_app : AppState :=
  {| app_db := {| argo_measurements := Some sample_table; id_seq := 5 |};
     cache_data := [] |}.

(** A row of the sample float, later than every sample of the file. *)
Definition stored_later : StoredRow :=
  {| row_id := 9; row_float_id := "2902347"; row_timestamp := 200;
     row_latitude := fl 12; row_longitude := fl 82; row_pressure := fl 5;
     row_temperature := fl 21; row_salinity := fl 35;
     row_location := POINT 4326 (fl 82) (fl 12) |}.

(** A database that holds that row and no other. *)
Definition with_later_row : World :=
  {| db := {| argo_measurements :=
                Some {| tbl_columns := def_columns argo_table;
                        tbl_rows := [stored_later] |};
              id_seq := 10 |};
     stdout := []; events := [] |}.

(** An app over a database without the measurement table. *)
Definition app_without_table : AppState :=
  {| app_db := db fresh; cache_data := [] |}.

(** The box from (79, 9) to (82, 12), and its result over the sample
    table. *)
Definition sample_box : Query := SpatialQuery (fl 79) (fl 9) (fl 82) (fl 12).

Definition sample_result : DataFrame :=
  {| df_columns := ["float_id"; "latitude"; "longitude"; "timestamp"];
     df_rows := [ [Str "2902347"; Num (fl 10); Num (fl 80); Time (Some 100)];
                  [Str "2902347"; Num (fl 11); Num (fl 81); Time (Some 70)] ] |}.

(** A profile of the sample float, a selector left at its first option, and
    a title case that changes nothing. *)
Definition sample_profile : DataFrame :=
  {| df_columns := ["float_id"; "pressure"; "temperature"; "salinity"];
     df_rows := [ [Str "2902347"; Num (fl 5); Num (fl 20); Num (fl 35)];
                  [Str "2902347"; Num (fl 7); Num (fl 18); Num (fl 34)] ] |}.

Definition first_option (options : list string) : option string := head options.

Definition as_written (s : string) : string := s.

(** The records of the sample batch, and the requests of a run on a fresh
    database whose insert of them is rolled back. *)
Definition sample_records : list (gmap string param) :=
  record_of <$> df_rows sample_batch.

Definition failed_run_events : list Event :=
  [HasTable "argo_measurements"; CreateAll; Connect; Begin;
   SelectCount (Str "2902347") (Time (Some 70)); InsertMany sample_records;
   Rollback; Close].

(* ================================================================== *)
(** * Properties *)
(* ================================================================== *)

(** ** How the script's steps change the world *)

Ltac unfold_M :=
  unfold mbind, M_bind, mret, M_ret, lift, step, print, emit, try_except,
    add_stdout, add_events, set_db in *.

Lemma parse_argo_file_eq file_path w :
  parse_argo_file file_path w =
  match read_core_data file_path with
  | Ok (platform_number, core_data) =>
      (Ok (Some core_data),
       add_stdout [Opening_NetCDF_file file_path;
                   Successfully_parsed (len core_data) platform_number] w)
  | Raise e =>
      (Ok None,
       add_stdout [Opening_NetCDF_file file_path; Error_parsing_file file_path e] w)
  end.
Proof.
  unfold parse_argo_file, parse_body. unfold_M. simpl.
  destruct (read_core_data file_path) as [[pn cd]|e]; simpl;
    by rewrite <- app_assoc.
Qed.

Lemma ensure_schema_eq w :
  ensure_schema w =
  (Ok tt,
   match argo_measurements (db w) with
   | Some _ => add_stdout [Table_already_exists] (add_events [HasTable "argo_measurements"] w)
   | None =>
       add_stdout [Table_not_found_Creating_table; Table_created_successfully]
         (add_events [HasTable "argo_measurements"; CreateAll]
            (set_db {| argo_measurements := Some created_table; id_seq := id_seq (db w) |} w))
   end).
Proof.
  unfold ensure_schema, has_table, create_all. unfold_M. simpl.
  destruct (argo_measurements (db w)) as [t|] eqn:Ht; simpl.
  - done.
  - rewrite Ht. simpl. by rewrite <- !app_assoc.
Qed.

(** ** The parser *)

Lemma filter_fmap_ext {A B} (f g : A → B) (p : B → bool) (q : A → bool) (l : list A) :
  (∀ x, f x = g x) → (∀ x, p (g x) = q x) →
  List.filter p (f <$> l) = g <$> List.filter q l.
Proof.
  intros Hf Hp. induction l as [|x l IH]; csimpl; [done|].
  rewrite Hf, Hp. destruct (q x); csimpl; by rewrite IH.
Qed.

Lemma complete_batch_row labels platform_number src :
  complete (batch_row labels platform_number src) = negb (has_missing labels src).
Proof.
  unfold complete, batch_row, has_missing, core_variables. simpl.
  repeat match goal with |- context [isna ?c] => destruct (isna c) end; done.
Qed.

(** [df[[...]]] returns exactly when every label asked for is a column. *)
Lemma unique_labels_nil names : ∀ seen,
  unique_labels seen names = [] ↔ Forall (fun n => n ∈ seen) names.
Proof.
  induction names as [|n names IH]; intros seen; simpl.
  - split; [constructor|done].
  - destruct (decide (n ∈ seen)) as [Hin|Hout].
    + rewrite IH. split; [by constructor|]. by intros [_ ?]%Forall_cons.
    + split; [done|]. by intros [? _]%Forall_cons.
Qed.

Lemma not_found_nil labels names :
  not_found labels names = [] ↔ Forall (fun v => is_Some (get_loc v labels)) names.
Proof.
  unfold not_found. rewrite unique_labels_nil.
  induction names as [|n names IH]; simpl.
  - split; constructor.
  - unfold is_column at 1. destruct (get_loc n labels) as [i|] eqn:Hn; simpl.
    + rewrite IH. split; [constructor; eauto|]. by intros [_ ?]%Forall_cons.
    + split.
      * intros [[]%elem_of_nil _]%Forall_cons.
      * intros [[i Hi] _]%Forall_cons. congruence.
Qed.

Lemma locate_Ok_positions labels names ixs :
  locate labels names = Ok ixs →
  Forall (fun v => is_Some (get_loc v labels)) names ∧
  ixs = omap (fun n => get_loc n labels) names.
Proof.
  unfold locate. destruct (not_found labels names) eqn:H; [|done].
  intros [= <-]. split; [by apply not_found_nil|done].
Qed.

Lemma locate_Ok labels names :
  Forall (fun v => is_Some (get_loc v labels)) names ↔ ∃ ixs, locate labels names = Ok ixs.
Proof.
  split.
  - intros H%not_found_nil. unfold locate. rewrite H. eauto.
  - intros [ixs H]. by apply locate_Ok_positions in H as [? _].
Qed.

(** What [read_core_data] returns when it returns. *)
Lemma read_core_data_Ok file_path platform_number core_data :
  read_core_data file_path = Ok (platform_number, core_data) →
  ∃ ds,
    open_dataset file_path = Ok ds ∧
    platform_number_of ds = Ok platform_number ∧
    df_columns core_data = scalar_fields ++ ["float_id"] ∧
    df_rows core_data =
      batch_row (df_columns (to_dataframe ds)) platform_number
        <$> List.filter (fun src => negb (has_missing (df_columns (to_dataframe ds)) src))
              (df_rows (to_dataframe ds)).
Proof.
  unfold read_core_data. unfold mbind, outcome_bind.
  destruct (open_dataset file_path) as [ds|]; [|done].
  destruct (platform_number_of ds) as [pn|] eqn:Hpn; [|done].
  unfold getitem_columns. unfold mbind, outcome_bind.
  destruct (locate _ core_variables) as [ixs|] eqn:Hloc; [|done].
  apply locate_Ok_positions in Hloc as [Hall ->].
  unfold core_variables in *.
  repeat (apply Forall_cons in Hall as [[? ?] Hall]). clear Hall. simpl.
  repeat match goal with
         | H : get_loc ?v ?l = Some _ |- context [get_loc ?v ?l] => rewrite H
         end.
  intros [= <- <-]. exists ds. split; [done|]. split; [done|]. split; [done|].
  simpl. rewrite <- list_fmap_compose. apply filter_fmap_ext.
  - intros src. unfold batch_row, source_cell, take_cells, core_variables. simpl.
    repeat match goal with H : get_loc _ _ = Some _ |- _ => rewrite H; clear H end.
    done.
  - intros src. apply complete_batch_row.
Qed.

(** Every row of a parsed batch: six cells that are not missing, then the
    float identifier. *)
Lemma batch_row_shape labels platform_number src :
  has_missing labels src = false →
  ∃ ts lat lon pres temp sal,
    batch_row labels platform_number src = [ts; lat; lon; pres; temp; sal; Str platform_number] ∧
    isna ts = false ∧ isna lat = false ∧ isna lon = false ∧
    isna pres = false ∧ isna temp = false ∧ isna sal = false.
Proof.
  unfold has_missing, batch_row, core_variables. simpl. intros H.
  repeat (apply orb_false_elim in H; destruct H as [? H]).
  eexists _, _, _, _, _, _. split; [reflexivity|]. by repeat split.
Qed.

Lemma parsed_rows_shape file_path platform_number core_data row :
  read_core_data file_path = Ok (platform_number, core_data) →
  row ∈ df_rows core_data →
  ∃ ts lat lon pres temp sal,
    row = [ts; lat; lon; pres; temp; sal; Str platform_number] ∧
    isna ts = false ∧ isna lat = false ∧ isna lon = false ∧
    isna pres = false ∧ isna temp = false ∧ isna sal = false.
Proof.
  intros (ds & _ & _ & _ & Hrows)%read_core_data_Ok. rewrite Hrows.
  intros (src & -> & Hsrc)%list_elem_of_fmap.
  apply list_elem_of_In, filter_In in Hsrc as [_ Hc].
  apply batch_row_shape. by apply negb_true_iff.
Qed.

(** C4. Completeness filter: when the parser returns a batch, (1) every row of
    the batch holds a value that is not missing under each of the six scalar
    fields, (2) the batch is, in order, the image of exactly those source
    rows that have no missing value under the six projected variables, so
    (3) a source row with a missing value under any of them has no image in
    the batch. *)
Theorem parse_completeness_filter file_path w argo_data w' :
  parse_argo_file file_path w = (Ok (Some argo_data), w') →
  ∃ ds platform_number,
    open_dataset file_path = Ok ds ∧
    platform_number_of ds = Ok platform_number ∧
    let labels := df_columns (to_dataframe ds) in
    let sources := df_rows (to_dataframe ds) in
    (∀ row name, row ∈ df_rows argo_data → name ∈ scalar_fields →
       ∃ c, row_getitem (df_columns argo_data) row name = Ok c ∧ isna c = false) ∧
    df_rows argo_data =
      batch_row labels platform_number
        <$> List.filter (fun src => negb (has_missing labels src)) sources ∧
    (∀ src v, src ∈ sources → v ∈ core_variables →
       isna (source_cell labels src v) = true →
       batch_row labels platform_number src ∉ df_rows argo_data).
Proof.
  rewrite parse_argo_file_eq.
  destruct (read_core_data file_path) as [[pn cd]|e] eqn:Hread; [|done].
  intros [= <- _].
  destruct (read_core_data_Ok _ _ _ Hread) as (ds & Hopen & Hpn & Hcols & Hrows).
  exists ds, pn. split; [done|]. split; [done|]. simpl. split; [|split; [done|]].
  - intros row name Hrow Hname.
    destruct (parsed_rows_shape _ _ _ _ Hread Hrow)
      as (ts & lat & lon & pres & temp & sal & -> & ? & ? & ? & ? & ? & ?).
    rewrite Hcols. unfold scalar_fields in Hname.
    rewrite !elem_of_cons, elem_of_nil in Hname.
    destruct Hname as [->|[->|[->|[->|[->|[->|[]]]]]]]; eexists; (split; [reflexivity|done]).
  - intros src v Hsrc Hv Hna Hin.
    destruct (parsed_rows_shape _ _ _ _ Hread Hin)
      as (ts & lat & lon & pres & temp & sal & Heq & ? & ? & ? & ? & ? & ?).
    unfold batch_row, core_variables in Heq. simpl in Heq.
    injection Heq as <- <- <- <- <- <-.
    unfold core_variables in Hv. rewrite !elem_of_cons, elem_of_nil in Hv.
    destruct Hv as [->|[->|[->|[->|[->|[->|[]]]]]]]; congruence.
Qed.

Lemma locate_missing labels names v :
  v ∈ names → get_loc v labels = None → ∃ e, locate labels names = Raise e.
Proof.
  intros Hv Hloc.
  destruct (locate labels names) as [ixs|e] eqn:H; [|eauto].
  apply locate_Ok_positions in H as [Hall _].
  apply (proj1 (Forall_forall _ _) Hall) in Hv as [i Hi]. congruence.
Qed.

Lemma cannot_parse_raises path :
  cannot_parse path → ∃ e, read_core_data path = Raise e.
Proof.
  intros H. unfold read_core_data, mbind, outcome_bind. unfold cannot_parse in H.
  destruct (open_dataset path) as [ds|e]; [|eauto].
  destruct (H ds eq_refl) as [Hpn|(v & Hv & Hloc)].
  - unfold platform_number_of. rewrite Hpn. simpl. eauto.
  - destruct (platform_number_of ds); [|eauto].
    unfold getitem_columns. destruct (locate_missing _ _ _ Hv Hloc) as [u ->].
    simpl. eauto.
Qed.

(** ** The main block *)

Lemma main_eq w :
  main w =
  let w0 := snd (ensure_schema w) in
  match read_core_data file_path with
  | Raise e =>
      (Ok tt,
       add_stdout [Opening_NetCDF_file file_path; Error_parsing_file file_path e] w0)
  | Ok (platform_number, argo_data) =>
      let w1 := add_stdout [Opening_NetCDF_file file_path;
                            Successfully_parsed (len argo_data) platform_number] w0 in
      if empty argo_data then (Ok tt, w1)
      else
        match with_connect (with_begin (check_and_load argo_data)) w1 with
        | (Ok u, w2) => (Ok u, w2)
        | (Raise e, w2) => (Ok tt, add_stdout [An_error_occurred_during_ingestion e] w2)
        end
  end.
Proof.
  unfold main, main_body, try_except.
  unfold mbind at 1 2. unfold M_bind.
  rewrite ensure_schema_eq, parse_argo_file_eq. simpl.
  destruct (read_core_data file_path) as [[pn cd]|e]; simpl; [|done].
  destruct (empty cd); simpl; [done|].
  destruct (with_connect _ _) as [[[]|e] w2]; done.
Qed.

(** The main block never lets an exception out. *)
Lemma main_returns w : fst (main w) = Ok tt.
Proof.
  rewrite main_eq. simpl.
  destruct (read_core_data file_path) as [[pn cd]|e]; [|done].
  destruct (empty cd); [done|].
  by destruct (with_connect _ _) as [[[]|e] w2].
Qed.

Lemma stored_rows_ensure_schema w :
  stored_rows (db (snd (ensure_schema w))) = stored_rows (db w).
Proof.
  rewrite ensure_schema_eq. unfold stored_rows. simpl.
  destruct (argo_measurements (db w)) eqn:H; simpl; by rewrite ?H.
Qed.

Lemma db_ensure_schema_exists w :
  is_Some (argo_measurements (db w)) → db (snd (ensure_schema w)) = db w.
Proof. rewrite ensure_schema_eq. by intros [t ->]. Qed.

Lemma events_ensure_schema w :
  events (snd (ensure_schema w)) = events w ++ schema_events (db w).
Proof.
  rewrite ensure_schema_eq. unfold schema_events. simpl.
  by destruct (argo_measurements (db w)).
Qed.

(** C7 (as amended). Parse failure recovery: for a path whose file cannot be
    opened or lacks a required variable, [parse_argo_file] raises nothing and
    returns None, which is no batch and carries no cause; the cause is
    printed, and it is the opening error when the file does not open.  The
    main block then returns normally, having printed that line and done
    nothing to storage after the schema step. *)
Theorem parse_failure_recovery path w :
  cannot_parse path →
  ∃ e,
    read_core_data path = Raise e ∧
    (∀ e', open_dataset path = Raise e' → e = e') ∧
    parse_argo_file path w =
      (Ok None, add_stdout [Opening_NetCDF_file path; Error_parsing_file path e] w) ∧
    (path = file_path →
       main w =
         (Ok tt,
          add_stdout [Opening_NetCDF_file path; Error_parsing_file path e]
            (snd (ensure_schema w))) ∧
       events (snd (main w)) = events (snd (ensure_schema w)) ∧
       stored_rows (db (snd (main w))) = stored_rows (db w)).
Proof.
  intros [e He]%cannot_parse_raises. exists e. split; [done|]. split; [|split].
  - intros e' He'. unfold read_core_data, mbind, outcome_bind in He.
    rewrite He' in He. congruence.
  - by rewrite parse_argo_file_eq, He.
  - intros ->. rewrite main_eq, He. simpl. split; [done|]. split; [done|].
    apply stored_rows_ensure_schema.
Qed.

(** C10 (as amended). When parsing returns None or a batch without rows, the
    main block asks the storage engine nothing after the schema step: no
    connection, no transaction, no count query, no insert.  Storage is as the
    schema manager left it: the stored rows are those from before the run,
    and the whole database is unchanged when the table already existed;
    when it did not, the run has created it, empty. *)
Theorem no_batch_no_storage_traffic w :
  (fst (parse_argo_file file_path (snd (ensure_schema w))) = Ok None ∨
   ∃ argo_data,
     fst (parse_argo_file file_path (snd (ensure_schema w))) = Ok (Some argo_data) ∧
     empty argo_data = true) →
  fst (main w) = Ok tt ∧
  events (snd (main w)) = events w ++ schema_events (db w) ∧
  db (snd (main w)) = db (snd (ensure_schema w)) ∧
  stored_rows (db (snd (main w))) = stored_rows (db w) ∧
  (is_Some (argo_measurements (db w)) → db (snd (main w)) = db w) ∧
  (argo_measurements (db w) = None →
     argo_measurements (db (snd (main w))) = Some created_table).
Proof.
  intros H. split; [apply main_returns|].
  assert (main w = (Ok tt, snd (main w)) ∧
          db (snd (main w)) = db (snd (ensure_schema w)) ∧
          events (snd (main w)) = events (snd (ensure_schema w))) as (_ & Hdb & Hev).
  { rewrite main_eq. rewrite parse_argo_file_eq in H. simpl.
    destruct (read_core_data file_path) as [[pn cd]|e]; simpl in *; [|done].
    destruct H as [[=]|(df & [= <-] & ->)]. done. }
  rewrite Hev, Hdb. split; [apply events_ensure_schema|]. split; [done|].
  split; [apply stored_rows_ensure_schema|]. split; [apply db_ensure_schema_exists|].
  intros Hnone. rewrite ensure_schema_eq. simpl. by rewrite Hnone.
Qed.

(** C8. Schema manager: the step returns normally; if the measurement table
    is absent it is created, without rows, with exactly the nine columns of
    the data model; if it exists the database is left as it was, and the
    engine is only asked whether the table exists. *)
Theorem ensure_schema_creates_or_keeps w :
  fst (ensure_schema w) = Ok tt ∧
  match argo_measurements (db w) with
  | None =>
      db (snd (ensure_schema w)) =
        {| argo_measurements :=
             Some {| tbl_columns :=
                       [ {| col_name := "id"; col_type := Integer;
                            primary_key := true; autoincrement := true |};
                         {| col_name := "float_id"; col_type := SqlString 20;
                            primary_key := false; autoincrement := false |};
                         {| col_name := "timestamp"; col_type := DateTime;
                            primary_key := false; autoincrement := false |};
                         {| col_name := "latitude"; col_type := Float;
                            primary_key := false; autoincrement := false |};
                         {| col_name := "longitude"; col_type := Float;
                            primary_key := false; autoincrement := false |};
                         {| col_name := "pressure"; col_type := Float;
                            primary_key := false; autoincrement := false |};
                         {| col_name := "temperature"; col_type := Float;
                            primary_key := false; autoincrement := false |};
                         {| col_name := "salinity"; col_type := Float;
                            primary_key := false; autoincrement := false |};
                         {| col_name := "location"; col_type := Geometry "POINT" 4326;
                            primary_key := false; autoincrement := false |} ];
                     tbl_rows := [] |};
           id_seq := id_seq (db w) |} ∧
      events (snd (ensure_schema w)) = events w ++ [HasTable "argo_measurements"; CreateAll]
  | Some t =>
      db (snd (ensure_schema w)) = db w ∧
      events (snd (ensure_schema w)) = events w ++ [HasTable "argo_measurements"]
  end.
Proof.
  rewrite ensure_schema_eq. split; [done|].
  by destruct (argo_measurements (db w)).
Qed.

(** ** The transaction *)

Lemma insert_row_spec record d t :
  argo_measurements d = Some t →
  match insert_row record d with
  | (Ok _, d') => ∃ r, stores record r ∧ argo_measurements d' = Some (appended t [r])
  | (Raise _, d') => argo_measurements d' = Some t
  end.
Proof.
  intros Ht. unfold insert_row. rewrite Ht.
  destruct (bind_record (id_seq d) record) as [r|e] eqn:Hbind; [|done].
  destruct (engine_accepts r) eqn:Hacc; [|done].
  exists r. split; [by exists (id_seq d)|done].
Qed.

(** The insert appends the rows it has taken, in the order of the records:
    all of them when it returns, a proper prefix when it raises. *)
Lemma insert_rows_spec records : ∀ d t,
  argo_measurements d = Some t →
  ∃ rows,
    argo_measurements (snd (insert_rows records d)) = Some (appended t rows) ∧
    Forall2 stores (take (length rows) records) rows ∧
    match fst (insert_rows records d) with
    | Ok _ => length rows = length records
    | Raise _ => (length rows < length records)%nat
    end.
Proof.
  induction records as [|record records IH]; intros d t Ht; simpl.
  - exists []. unfold appended. rewrite app_nil_r. by destruct t.
  - pose proof (insert_row_spec record d t Ht) as H.
    destruct (insert_row record d) as [[[]|e] d'].
    + destruct H as (r & Hr & Hd').
      destruct (IH d' _ Hd') as (rows & Htab & Hall & Hlen).
      exists (r :: rows). split; [|split].
      * rewrite Htab. unfold appended. simpl. by rewrite <- app_assoc.
      * simpl. by constructor.
      * destruct (fst (insert_rows records d')); simpl; lia.
    + exists []. simpl. unfold appended. rewrite app_nil_r.
      split; [by destruct t|]. split; [constructor|lia].
Qed.

Lemma make_records_length labels rows records :
  make_records labels rows = Ok records → length records = length rows.
Proof.
  revert records. induction rows as [|row rows IH]; simpl; intros records.
  - by intros [= <-].
  - unfold mbind, outcome_bind.
    destruct (make_record labels row); [|done].
    destruct (make_records labels rows); [|done].
    intros [= <-]. simpl. by rewrite (IH _ eq_refl).
Qed.

Lemma check_and_load_eq argo_data w :
  check_and_load argo_data w =
  match gate_parameters argo_data with
  | Raise e => (Raise e, w)
  | Ok (first_timestamp, float_id) =>
      let w1 := add_events [SelectCount float_id first_timestamp] w in
      match select_count float_id first_timestamp (db w) with
      | Raise e => (Raise e, w1)
      | Ok result =>
          if 0 <? result then
            (Ok tt, add_stdout [Data_already_exists_Skipping_insertion float_id] w1)
          else
            let w2 := add_stdout [Inserting_new_records (len argo_data)] w1 in
            match make_records (df_columns argo_data) (df_rows argo_data) with
            | Raise e => (Raise e, w2)
            | Ok records =>
                let w3 := add_events [InsertMany records] w2 in
                match insert_rows records (db w) with
                | (Ok _, d) => (Ok tt, add_stdout [Data_insertion_complete] (set_db d w3))
                | (Raise e, d) => (Raise e, set_db d w3)
                end
            end
      end
  end.
Proof.
  unfold check_and_load, load_batch, execute_count, execute_insert. unfold_M. simpl.
  destruct (gate_parameters argo_data) as [[ts fid]|e]; simpl; [|done].
  destruct (select_count fid ts (db w)) as [n|e]; simpl; [|done].
  destruct (0 <? n); simpl; [done|].
  destruct (make_records _ _) as [records|e]; simpl; [|done].
  destruct (insert_rows records (db w)) as [[[]|e] d]; simpl;
    by rewrite <- ?app_assoc.
Qed.

Lemma with_begin_eq {A} (body : M A) w :
  with_begin body w =
  match body (add_events [Begin] w) with
  | (Ok a, w') => (Ok a, add_events [Commit] w')
  | (Raise e, w') =>
      (Raise e,
       add_events [Rollback]
         (set_db {| argo_measurements := argo_measurements (db w);
                    id_seq := id_seq (db w') |} w'))
  end.
Proof.
  unfold with_begin. unfold_M. simpl.
  by destruct (body _) as [[a|e] w'].
Qed.

Lemma with_connect_eq {A} (body : M A) w :
  with_connect body w =
  match body (add_events [Connect] w) with
  | (r, w') => (r, add_events [Close] w')
  end.
Proof. unfold with_connect. unfold_M. simpl. by destruct (body _) as [[a|e] w']. Qed.

Lemma select_count_Ok fid ts d n :
  select_count fid ts d = Ok n →
  ∃ t f t0, argo_measurements d = Some t ∧ fid = Str f ∧ ts = Time (Some t0) ∧
            n = count_matching f t0 (tbl_rows t).
Proof.
  unfold select_count. destruct (argo_measurements d) as [t|]; [|done].
  destruct fid as [| |f|]; try done; destruct ts as [|[t0|]| |]; try done.
  intros [= <-]. by exists t, f, t0.
Qed.

Ltac not_in_events :=
  let H := fresh in
  intros H; repeat (apply elem_of_cons in H as [H|H]; [discriminate H|]);
  by apply elem_of_nil in H.

(** C3 (as amended). Atomic bulk load, on the measurement table: the
    transaction of lines 93-117, for every batch and every state of storage.
    When anything in it raises (the gate, the construction of the records
    with their location points, the insert, also partway through the rows)
    the transaction ends with a rollback, no commit is issued, and the table
    is the one from before the transaction: no row of the batch is visible.
    A commit is issued only when the body returns: either the gate skipped
    and the database is untouched, or the one insert statement took every
    record of the batch and the table holds the old rows followed by one row
    per record.  The statement is about the table, not about all of storage:
    a rollback does not give back the keys that the failed insert drew. *)
Theorem bulk_load_atomic argo_data w :
  ∃ evs,
    events (snd (with_begin (check_and_load argo_data) w)) = events w ++ Begin :: evs ∧
    match fst (with_begin (check_and_load argo_data) w) with
    | Raise _ =>
        argo_measurements (db (snd (with_begin (check_and_load argo_data) w)))
          = argo_measurements (db w) ∧
        last evs = Some Rollback ∧ Commit ∉ evs
    | Ok _ =>
        last evs = Some Commit ∧ (Rollback ∉ evs) ∧
        ((∃ fid ts, evs = [SelectCount fid ts; Commit]) ∧
         db (snd (with_begin (check_and_load argo_data) w)) = db w
         ∨
         ∃ fid ts records rows t,
           evs = [SelectCount fid ts; InsertMany records; Commit] ∧
           length records = len argo_data ∧
           Forall2 stores records rows ∧
           argo_measurements (db w) = Some t ∧
           argo_measurements (db (snd (with_begin (check_and_load argo_data) w)))
             = Some (appended t rows))
    end.
Proof.
  rewrite with_begin_eq, check_and_load_eq.
  destruct (gate_parameters argo_data) as [[ts fid]|e]; simpl.
  2: { exists [Rollback]. (repeat split); [by rewrite <- app_assoc|not_in_events]. }
  destruct (select_count fid ts (db w)) as [n|e] eqn:Hcount; simpl.
  2: { exists [SelectCount fid ts; Rollback].
       (repeat split); [by rewrite <- !app_assoc|not_in_events]. }
  destruct (0 <? n); simpl.
  { exists [SelectCount fid ts; Commit].
    split; [by rewrite <- !app_assoc|]. split; [done|]. split; [not_in_events|].
    left. split; [eauto|done]. }
  destruct (make_records _ _) as [records|e] eqn:Hrecords; simpl.
  2: { exists [SelectCount fid ts; Rollback].
       (repeat split); [by rewrite <- !app_assoc|not_in_events]. }
  apply select_count_Ok in Hcount as (t & _ & _ & Ht & _).
  destruct (insert_rows_spec records (db w) t Ht) as (rows & Htab & Hall & Hlen).
  destruct (insert_rows records (db w)) as [[[]|e] d]; simpl in *.
  - exists [SelectCount fid ts; InsertMany records; Commit].
    split; [by rewrite <- !app_assoc|]. split; [done|]. split; [not_in_events|].
    right. exists fid, ts, records, rows, t.
    rewrite Hlen, firstn_all in Hall.
    split; [done|]. split; [by eapply make_records_length|]. done.
  - exists [SelectCount fid ts; InsertMany records; Rollback].
    (repeat split); [by rewrite <- !app_assoc|not_in_events].
Qed.

(** ** The order of the requests to storage *)

(** The requests of one run of the main block. *)
Lemma main_events w :
  ∃ evs,
    events (snd (main w)) = events w ++ schema_events (db w) ++ evs ∧
    (evs = [] ∨
     evs = [Connect; Begin; Rollback; Close] ∨
     (∃ fid ts, evs = [Connect; Begin; SelectCount fid ts; Rollback; Close]) ∨
     (∃ fid ts, evs = [Connect; Begin; SelectCount fid ts; Commit; Close]) ∨
     (∃ fid ts records,
        evs = [Connect; Begin; SelectCount fid ts; InsertMany records; Rollback; Close]) ∨
     (∃ fid ts records,
        evs = [Connect; Begin; SelectCount fid ts; InsertMany records; Commit; Close])).
Proof.
  rewrite main_eq. cbv zeta.
  destruct (read_core_data file_path) as [[pn cd]|e].
  2: { exists []. simpl. rewrite events_ensure_schema, app_nil_r. auto. }
  destruct (empty cd).
  { exists []. simpl. rewrite events_ensure_schema, app_nil_r. auto. }
  rewrite with_connect_eq, with_begin_eq, check_and_load_eq.
  destruct (gate_parameters cd) as [[ts fid]|e]; simpl.
  { destruct (select_count fid ts _) as [n|e]; simpl.
    - destruct (0 <? n); simpl.
      + eexists. rewrite events_ensure_schema, <- !app_assoc. split; [done|].
        do 3 right. left. by exists fid, ts.
      + destruct (make_records _ _) as [records|e]; simpl.
        * destruct (insert_rows records _) as [[[]|e] d]; simpl;
            eexists; rewrite events_ensure_schema, <- !app_assoc; (split; [done|]).
          -- do 5 right. by exists fid, ts, records.
          -- do 4 right. left. by exists fid, ts, records.
        * eexists. rewrite events_ensure_schema, <- !app_assoc. split; [done|].
          do 2 right. left. by exists fid, ts.
    - eexists. rewrite events_ensure_schema, <- !app_assoc. split; [done|].
      do 2 right. left. by exists fid, ts. }
  eexists. rewrite events_ensure_schema, <- !app_assoc. split; [done|]. auto.
Qed.

(** C6. Transactional check-then-act: in every run of the main block, from
    every state, the requests made to storage keep the discipline: the
    gate's count query and the bulk insert lie between the begin and the end
    of one and the same transaction, and no insert is issued outside the
    transaction in which the count query was made. *)
Theorem dedup_and_insert_share_transaction w :
  ∃ evs,
    events (snd (main w)) = events w ++ evs ∧
    check_then_act Idle evs = true.
Proof.
  destruct (main_events w) as (evs & Hev & Hcases).
  exists (schema_events (db w) ++ evs). split; [done|].
  unfold schema_events.
  destruct (argo_measurements (db w));
    destruct Hcases as [->|[->|[(?&?&->)|[(?&?&->)|[(?&?&?&->)|(?&?&?&->)]]]]]; done.
Qed.

(** ** Batches that the parser returns *)

Lemma parsed_batch_shaped file_path platform_number argo_data :
  read_core_data file_path = Ok (platform_number, argo_data) →
  batch_shaped platform_number argo_data.
Proof.
  intros Hread. split.
  - by destruct (read_core_data_Ok _ _ _ Hread) as (ds & _ & _ & -> & _).
  - apply Forall_forall. intros row Hrow.
    by apply (parsed_rows_shape _ _ _ _ Hread).
Qed.

Lemma make_records_batch platform_number rows :
  Forall (batch_row_shaped platform_number) rows →
  make_records batch_labels rows = Ok (record_of <$> rows).
Proof.
  induction 1 as [|row rows (ts&lat&lon&pres&temp&sal&->&_) _ IH]; [done|].
  simpl. rewrite IH. done.
Qed.

(** What the engine stores of such a record. *)
Lemma stores_record_of ts lat lon pres temp sal fid r :
  stores (record_of [ts; lat; lon; pres; temp; sal; fid]) r →
  ∃ id t a b p q s f,
    ts = Time (Some t) ∧ lat = Num a ∧ lon = Num b ∧ pres = Num p ∧
    temp = Num q ∧ sal = Num s ∧ fid = Str f ∧
    r = {| row_id := id; row_float_id := f; row_timestamp := t;
           row_latitude := a; row_longitude := b; row_pressure := p;
           row_temperature := q; row_salinity := s;
           row_location := POINT 4326 b a |}.
Proof.
  intros (id & Hbind & _). exists id. revert Hbind. vm_compute.
  destruct fid as [| |f|]; try done.
  destruct ts as [|[t|]| |]; try done.
  destruct lat as [a| | |]; try done.
  destruct lon as [b| | |]; try done.
  destruct pres as [p| | |]; try done.
  destruct temp as [q| | |]; try done.
  destruct sal as [s| | |]; try done.
  intros [= <-]. by exists t, a, b, p, q, s, f.
Qed.

(** The record carries the point text built from its own longitude and
    latitude, longitude first. *)
Lemma record_of_location platform_number row :
  batch_row_shaped platform_number row →
  ∃ lon lat,
    record_of row !! "longitude" = Some (Val lon) ∧
    record_of row !! "latitude" = Some (Val lat) ∧
    record_of row !! "location" = Some (POINT_text lon lat).
Proof.
  intros (ts&lat&lon&pres&temp&sal&->&_). exists lon, lat.
  repeat split; vm_compute; reflexivity.
Qed.

(** ** What one run of the main block does to the stored rows *)

Lemma gate_parameters_batch platform_number argo_data first_timestamp float_id :
  batch_shaped platform_number argo_data →
  gate_parameters argo_data = Ok (first_timestamp, float_id) →
  df_rows argo_data ≠ [] → float_id = Str platform_number.
Proof.
  intros [Hcols Hrows]. unfold gate_parameters, getitem. rewrite Hcols. simpl.
  unfold mbind, outcome_bind. destruct (series_min _); [|done].
  destruct (df_rows argo_data) as [|row rows]; [done|].
  apply Forall_cons in Hrows as [(ts&lat&lon&pres&temp&sal&->&_) _].
  simpl. by intros [= _ <-].
Qed.

Lemma main_storage w :
  ∃ evs new,
    events (snd (main w)) = events w ++ evs ∧
    stored_rows (db (snd (main w))) = stored_rows (db w) ++ new ∧
    (∀ records, InsertMany records ∈ evs →
       ∃ platform_number argo_data,
         read_core_data file_path = Ok (platform_number, argo_data) ∧
         records = record_of <$> df_rows argo_data) ∧
    (new ≠ [] →
       ∃ platform_number argo_data first_timestamp,
         read_core_data file_path = Ok (platform_number, argo_data) ∧
         df_rows argo_data ≠ [] ∧
         gate_parameters argo_data = Ok (first_timestamp, Str platform_number) ∧
         Forall2 stores (record_of <$> df_rows argo_data) new).
Proof.
  rewrite main_eq. cbv zeta.
  pose proof (stored_rows_ensure_schema w) as Hsch.
  pose proof (events_ensure_schema w) as Hev.
  assert (∀ evs records, InsertMany records ∈ schema_events (db w) ++ evs →
            InsertMany records ∈ evs) as Hschema.
  { intros evs records [Hin|Hin]%elem_of_app; [exfalso; revert Hin|done].
    unfold schema_events. destruct (argo_measurements (db w)); not_in_events. }
  set (w0 := snd (ensure_schema w)) in *.
  destruct (read_core_data file_path) as [[pn cd]|e] eqn:Hread.
  2: { exists (schema_events (db w) ++ []), []. rewrite !app_nil_r. simpl.
       split; [done|]. split; [done|]. split; [|done].
       intros records Hin. exfalso. revert Hin.
       unfold schema_events. destruct (argo_measurements (db w)); not_in_events. }
  destruct (empty cd) eqn:Hempty.
  { exists (schema_events (db w) ++ []), []. rewrite !app_nil_r. simpl.
    split; [done|]. split; [done|]. split; [|done].
    intros records Hin. exfalso. revert Hin.
    unfold schema_events. destruct (argo_measurements (db w)); not_in_events. }
  pose proof (parsed_batch_shaped _ _ _ Hread) as Hshape.
  assert (df_rows cd ≠ []) as Hne.
  { intros Hnil. unfold empty in Hempty. rewrite Hnil in Hempty.
    by destruct (df_columns cd). }
  rewrite with_connect_eq, with_begin_eq, check_and_load_eq.
  destruct (gate_parameters cd) as [[ts fid]|e] eqn:Hgate; simpl.
  2: { exists (schema_events (db w) ++ [Connect; Begin; Rollback; Close]), [].
       rewrite app_nil_r, Hev, <- !app_assoc. simpl.
       split; [done|]. split; [by rewrite <- Hsch|]. split; [|done].
       intros records Hin%Hschema. exfalso. revert Hin. not_in_events. }
  destruct (select_count fid ts (db w0)) as [n|e] eqn:Hcount; simpl.
  2: { exists (schema_events (db w) ++ [Connect; Begin; SelectCount fid ts; Rollback; Close]), [].
       rewrite app_nil_r, Hev, <- !app_assoc. simpl.
       split; [done|]. split; [by rewrite <- Hsch|]. split; [|done].
       intros records Hin%Hschema. exfalso. revert Hin. not_in_events. }
  destruct (0 <? n); simpl.
  { exists (schema_events (db w) ++ [Connect; Begin; SelectCount fid ts; Commit; Close]), [].
    rewrite app_nil_r, Hev, <- !app_assoc. simpl.
    split; [done|]. split; [done|]. split; [|done].
    intros records Hin%Hschema. exfalso. revert Hin. not_in_events. }
  destruct Hshape as [Hcols Hrows]. rewrite Hcols.
  rewrite (make_records_batch _ _ Hrows). simpl.
  apply select_count_Ok in Hcount as (t & _ & _ & Ht & _).
  destruct (insert_rows_spec (record_of <$> df_rows cd) (db w0) t Ht)
    as (rows & Htab & Hall & Hlen).
  assert (∀ records ev,
    InsertMany records ∈ [Connect; Begin; SelectCount fid ts;
                          InsertMany (record_of <$> df_rows cd); ev; Close] →
    ev = Commit ∨ ev = Rollback →
    ∃ platform_number argo_data,
      Ok (pn, cd) = Ok (platform_number, argo_data) ∧
      records = record_of <$> df_rows argo_data) as Hins.
  { intros records ev Hin Hev'. exists pn, cd. split; [done|].
    repeat (apply elem_of_cons in Hin as [Hin|Hin]; try discriminate Hin).
    - by injection Hin.
    - destruct Hev' as [-> | ->]; discriminate Hin.
    - by apply elem_of_nil in Hin. }
  destruct (insert_rows (record_of <$> df_rows cd) (db w0)) as [[[]|e] d]; simpl in *.
  - exists (schema_events (db w) ++ [Connect; Begin; SelectCount fid ts;
              InsertMany (record_of <$> df_rows cd); Commit; Close]), rows.
    rewrite Hev, <- !app_assoc. simpl. split; [done|]. split.
    { unfold stored_rows at 1. rewrite Htab. simpl. rewrite <- Hsch.
      unfold stored_rows. by rewrite Ht. }
    split.
    { intros records Hin%Hschema. apply (Hins _ _ Hin). by left. }
    intros _. exists pn, cd, ts. split; [done|]. split; [done|].
    rewrite Hlen, firstn_all in Hall. split; [|done].
    by rewrite <- (gate_parameters_batch pn cd ts fid).
  - exists (schema_events (db w) ++ [Connect; Begin; SelectCount fid ts;
              InsertMany (record_of <$> df_rows cd); Rollback; Close]), [].
    rewrite app_nil_r, Hev, <- !app_assoc. simpl. split; [done|]. split.
    { by rewrite <- Hsch. }
    split; [|done].
    intros records Hin%Hschema. apply (Hins _ _ Hin). by right.
Qed.

Lemma stored_batch_rows platform_number rows new :
  Forall (batch_row_shaped platform_number) rows →
  Forall2 stores (record_of <$> rows) new →
  Forall2 (stored_as platform_number) rows new.
Proof.
  intros Hshape. revert new.
  induction Hshape as [|row rows' (ts&lat&lon&pres&temp&sal&->&_) _ IH];
    intros new Hall; csimpl in Hall.
  - apply Forall2_nil_inv_l in Hall as ->. constructor.
  - apply Forall2_cons_inv_l in Hall as (r & new' & Hst & Hall & ->).
    constructor; [|by apply IH].
    apply stores_record_of in Hst as (id&t&a&b&p&q&s&f&->&->&->&->&->&->&[= <-]&->).
    by exists id, t, a, b, p, q, s.
Qed.

(** The map explorer only reads the database. *)
Lemma explore_by_map_reads_only last_active_drawing s :
  app_db (snd (explore_by_map last_active_drawing s)) = app_db s.
Proof.
  unfold explore_by_map. destruct last_active_drawing as [coordinates|]; [|done].
  destruct (drawn_query coordinates) as [query|e]; [|done].
  unfold run_query. destruct (cached query (cache_data s)); [done|].
  by destruct (read_sql query (app_db s)).
Qed.

(** C5. Derived-field consistency: in every run of the main block, every
    record handed to the insert carries as location the point text built from
    that record's own longitude and latitude, longitude first; every row the
    run adds to the table has as location the SRID-4326 point of its own
    longitude and latitude; the rows stored before the run are kept as they
    were, in front of the new ones; and the map explorer leaves the database
    as it is.  So nothing else in the scripts writes a location. *)
Theorem location_is_derived w :
  (∃ evs new,
     events (snd (main w)) = events w ++ evs ∧
     stored_rows (db (snd (main w))) = stored_rows (db w) ++ new ∧
     (∀ records record, InsertMany records ∈ evs → record ∈ records →
        ∃ lon lat,
          record !! "longitude" = Some (Val lon) ∧
          record !! "latitude" = Some (Val lat) ∧
          record !! "location" = Some (POINT_text lon lat)) ∧
     Forall (fun r => row_location r = POINT 4326 (row_longitude r) (row_latitude r)) new) ∧
  (∀ last_active_drawing s,
     app_db (snd (explore_by_map last_active_drawing s)) = app_db s).
Proof.
  split; [|apply explore_by_map_reads_only].
  destruct (main_storage w) as (evs & new & Hev & Hrows & Hins & Hnew).
  exists evs, new. split; [done|]. split; [done|]. split.
  - intros records record (pn & cd & Hread & ->)%Hins (row & -> & Hrow)%list_elem_of_fmap.
    apply (record_of_location pn).
    destruct (parsed_batch_shaped _ _ _ Hread) as [_ Hshape].
    by apply (proj1 (Forall_forall _ _) Hshape).
  - destruct new as [|r new]; [constructor|].
    destruct Hnew as (pn & cd & ts & Hread & _ & _ & Hall); [done|].
    destruct (parsed_batch_shaped _ _ _ Hread) as [_ Hshape].
    pose proof (stored_batch_rows _ _ _ Hshape Hall) as Hstored.
    apply (Forall2_Forall_r _ _ _ _ Hstored).
    apply Forall_forall. by intros row _ r' (id&t&a&b&p&q&s&_&->).
Qed.

(** ** The dedup gate *)

(** On datetimes [min_from] gives a datetime that is a lower bound and is
    one of them. *)
Lemma min_from_Time s : ∀ c m,
  min_from c s = Ok (Time (Some m)) →
  ∃ x, c = Time (Some x) ∧ m ≤ x ∧
       Forall (fun c' => ∃ y, c' = Time (Some y) ∧ m ≤ y) s ∧
       Time (Some m) ∈ c :: s.
Proof.
  induction s as [|c' s IH]; intros c m; simpl.
  - intros [= ->]. exists m. split; [done|]. split; [lia|]. split; [constructor|].
    apply elem_of_cons. by left.
  - unfold mbind, outcome_bind.
    destruct (cell_ltb c' c) as [lt|] eqn:Hlt; [|done].
    intros (x & Hx & Hm & Hall & Hin)%IH.
    destruct c' as [a|[y|]|a|a], c as [b|[z|]|b|b]; simpl in Hlt;
      try discriminate Hlt; try (destruct lt; discriminate Hx).
    injection Hlt as <-.
    exists z. split; [done|].
    assert (m ≤ z ∧ m ≤ y) as [Hz Hy].
    { destruct (y <? z) eqn:Hyz; injection Hx as <-; lia. }
    split; [done|]. split.
    + constructor; [by exists y|done].
    + apply elem_of_cons in Hin as [Hin|Hin].
      * destruct (y <? z); rewrite Hin; set_solver.
      * set_solver.
Qed.

(** From a datetime on, [min_from] gives a datetime or raises. *)
Lemma min_from_kind s : ∀ x r,
  min_from (Time (Some x)) s = Ok r → ∃ m, r = Time (Some m).
Proof.
  induction s as [|c' s IH]; intros x r; simpl.
  - intros [= <-]. by exists x.
  - unfold mbind, outcome_bind.
    destruct c' as [|[y|]| |]; try done. simpl.
    destruct (y <? x); apply IH.
Qed.

Lemma filter_notna_id (s : list cell) :
  Forall (fun c => isna c = false) s →
  List.filter (fun c => negb (isna c)) s = s.
Proof.
  induction 1 as [|c s Hc _ IH]; simpl; [done|]. by rewrite Hc, IH.
Qed.

(** The column of timestamps of a parsed batch. *)
Lemma getitem_timestamp platform_number argo_data :
  batch_shaped platform_number argo_data →
  ∃ timestamps,
    getitem argo_data "timestamp" = Ok timestamps ∧
    Forall (fun c => isna c = false) timestamps ∧
    Forall2 (fun row c => row_getitem batch_labels row "timestamp" = Ok c)
      (df_rows argo_data) timestamps.
Proof.
  intros [Hcols Hrows]. unfold getitem. rewrite Hcols. simpl.
  eexists. split; [done|].
  induction Hrows as [|row rows (ts&lat&lon&pres&temp&sal&->&Hts&_) _ [IH1 IH2]]; csimpl.
  - split; constructor.
  - split; by constructor.
Qed.

(** What the gate asks about, for a parsed batch with rows: the float
    identifier of the batch and, when it is a datetime, the least timestamp
    of the batch. *)
Lemma gate_parameters_least platform_number argo_data ts fid m :
  batch_shaped platform_number argo_data →
  gate_parameters argo_data = Ok (ts, fid) →
  ts = Time (Some m) →
  (∀ row, row ∈ df_rows argo_data →
     ∃ x, row_getitem batch_labels row "timestamp" = Ok (Time (Some x)) ∧ m ≤ x) ∧
  (∃ row, row ∈ df_rows argo_data ∧
     row_getitem batch_labels row "timestamp" = Ok (Time (Some m))).
Proof.
  intros Hshape Hgate ->.
  destruct (getitem_timestamp _ _ Hshape) as (col & Hcol & Hna & Hrows).
  unfold gate_parameters in Hgate. rewrite Hcol in Hgate. simpl in Hgate.
  unfold mbind, outcome_bind in Hgate.
  destruct (series_min col) as [c|] eqn:Hmin; [|done].
  assert (c = Time (Some m)) as ->.
  { destruct (getitem argo_data "float_id"); [|done].
    destruct (iloc0 _); [|done]. by injection Hgate. }
  clear Hgate. unfold series_min in Hmin. rewrite (filter_notna_id _ Hna) in Hmin.
  destruct col as [|c col]; [done|].
  apply min_from_Time in Hmin as (x & -> & Hx & Hall & Hin).
  assert (Forall (fun c' => ∃ y, c' = Time (Some y) ∧ m ≤ y) (Time (Some x) :: col)) as Hall'.
  { constructor; [by exists x|done]. }
  split.
  - intros row Hrow.
    destruct (proj1 (list_elem_of_lookup _ _) Hrow) as [i Hi].
    destruct (Forall2_lookup_l _ _ _ _ _ Hrows Hi) as (c & Hc & Hget).
    destruct (proj1 (Forall_forall _ _) Hall' c) as (y & -> & Hy).
    { by eapply list_elem_of_lookup_2. }
    by exists y.
  - destruct (proj1 (list_elem_of_lookup _ _) Hin) as [i Hi].
    destruct (Forall2_lookup_r _ _ _ _ _ Hrows Hi) as (row & Hrow & Hget).
    exists row. split; [by eapply list_elem_of_lookup_2|done].
Qed.

(** C2. The dedup gate, for every parsed batch with rows and every state of
    storage in which its count query returns: the query is made for the
    float identifier of the batch and the least timestamp of the batch; its
    result is the number of stored rows with that float identifier and a
    timestamp at or after that least timestamp; the gate skips if and only
    if that number is greater than zero.  When it skips, the transaction
    body returns having made that one request and changed nothing in the
    database.  When it proceeds, one insert is issued with one record for
    every row of the batch. *)
Theorem dedup_gate_decides path platform_number argo_data w ts fid n :
  read_core_data path = Ok (platform_number, argo_data) →
  df_rows argo_data ≠ [] →
  gate_parameters argo_data = Ok (ts, fid) →
  select_count fid ts (db w) = Ok n →
  ∃ t m,
    argo_measurements (db w) = Some t ∧
    fid = Str platform_number ∧ ts = Time (Some m) ∧
    (∀ row, row ∈ df_rows argo_data →
       ∃ x, row_getitem batch_labels row "timestamp" = Ok (Time (Some x)) ∧ m ≤ x) ∧
    (∃ row, row ∈ df_rows argo_data ∧
       row_getitem batch_labels row "timestamp" = Ok (Time (Some m))) ∧
    n = Z.of_nat (length (List.filter
          (fun r => bool_decide (row_float_id r = platform_number)
                    && (m <=? row_timestamp r)) (tbl_rows t))) ∧
    let w1 := add_events [SelectCount fid ts] w in
    (0 < n ↔
     check_and_load argo_data w =
       (Ok tt, add_stdout [Data_already_exists_Skipping_insertion fid] w1)) ∧
    (¬ 0 < n →
     let records := record_of <$> df_rows argo_data in
     let w3 := add_events [InsertMany records]
                 (add_stdout [Inserting_new_records (len argo_data)] w1) in
     length records = len argo_data ∧
     check_and_load argo_data w =
       match insert_rows records (db w) with
       | (Ok _, d) => (Ok tt, add_stdout [Data_insertion_complete] (set_db d w3))
       | (Raise e, d) => (Raise e, set_db d w3)
       end).
Proof.
  intros Hread Hne Hgate Hcount.
  pose proof (parsed_batch_shaped _ _ _ Hread) as Hshape.
  pose proof (gate_parameters_batch _ _ _ _ Hshape Hgate Hne) as ->.
  destruct (select_count_Ok _ _ _ _ Hcount) as (t & f & m & Ht & [= <-] & -> & Hn).
  destruct (gate_parameters_least _ _ _ _ m Hshape Hgate eq_refl) as [Hlow Hmem].
  exists t, m. split; [done|]. split; [done|]. split; [done|].
  split; [done|]. split; [done|]. split; [done|]. cbv zeta.
  assert (make_records (df_columns argo_data) (df_rows argo_data)
          = Ok (record_of <$> df_rows argo_data)) as Hrecords.
  { destruct Hshape as [-> Hrows]. by apply (make_records_batch platform_number). }
  rewrite check_and_load_eq, Hgate, Hcount, Hrecords. cbv zeta.
  split; [split|].
  - intros Hpos. by rewrite (proj2 (Z.ltb_lt 0 n) Hpos).
  - destruct (0 <? n) eqn:Hpos; [intros _; by apply Z.ltb_lt|].
    intros Heq. exfalso.
    destruct (insert_rows _ (db w)) as [[[]|e] d]; [|discriminate Heq].
    apply (f_equal (fun p => stdout (snd p))) in Heq. simpl in Heq.
    rewrite <- app_assoc in Heq. apply app_inv_head in Heq. discriminate Heq.
  - intros Hpos. rewrite (proj2 (Z.ltb_ge 0 n)) by lia.
    split; [|done]. unfold len. by rewrite length_fmap.
Qed.

(** ** Running the main block twice *)

Lemma count_matching_pos fid ts (l l' : list StoredRow) r :
  row_float_id r = fid → ts ≤ row_timestamp r →
  0 < count_matching fid ts (l ++ r :: l').
Proof.
  intros Hfid Hts. unfold count_matching.
  rewrite List.filter_app, length_app. simpl.
  rewrite bool_decide_true by done.
  rewrite (proj2 (Z.leb_le _ _) Hts). simpl. lia.
Qed.

(** The gate's timestamp for a batch whose first row was stored. *)
Lemma gate_timestamp_of_stored platform_number argo_data ts fid row rows r :
  batch_shaped platform_number argo_data →
  gate_parameters argo_data = Ok (ts, fid) →
  df_rows argo_data = row :: rows →
  stored_as platform_number row r →
  ∃ m, ts = Time (Some m) ∧ m ≤ row_timestamp r ∧ row_float_id r = platform_number.
Proof.
  intros Hshape Hgate Hrows (id&t&a&b&p&q&s&->&->).
  destruct (getitem_timestamp _ _ Hshape) as (col & Hcol & Hna & Hall).
  assert (series_min col = Ok ts) as Hmin.
  { unfold gate_parameters in Hgate. rewrite Hcol in Hgate. simpl in Hgate.
    unfold mbind, outcome_bind in Hgate.
    destruct (series_min col); [|done].
    destruct (getitem argo_data "float_id"); [|done].
    destruct (iloc0 _); [|done]. by injection Hgate as -> _. }
  rewrite Hrows in Hall.
  apply Forall2_cons_inv_l in Hall as (c & col' & Hc & _ & ->).
  injection Hc as <-.
  unfold series_min in Hmin. rewrite (filter_notna_id _ Hna) in Hmin.
  destruct (min_from_kind _ _ _ Hmin) as [m ->].
  exists m. split; [done|]. split; [|done].
  destruct (gate_parameters_least _ _ _ _ m Hshape Hgate eq_refl) as [Hlow _].
  destruct (Hlow [Time (Some t); Num a; Num b; Num p; Num q; Num s; Str platform_number])
    as (x & [= <-] & Hx); [|done].
  rewrite Hrows. apply elem_of_cons. by left.
Qed.

(** C1. Idempotence at batch granularity: from every state of storage, if a
    run of the main block has added rows, then the next run on the same file
    system finds a positive count in its dedup gate, issues no insert (its
    requests are the table check and, in one transaction, the count query),
    and leaves the database, hence the stored rows and their number, as the
    first run left them. *)
Theorem ingestion_idempotent w :
  (length (stored_rows (db w)) < length (stored_rows (db (snd (main w)))))%nat →
  ∃ fid ts n,
    select_count fid ts (db (snd (main w))) = Ok n ∧ 0 < n ∧
    fst (main (snd (main w))) = Ok tt ∧
    events (snd (main (snd (main w)))) =
      events (snd (main w))
        ++ [HasTable "argo_measurements"; Connect; Begin; SelectCount fid ts; Commit; Close] ∧
    db (snd (main (snd (main w)))) = db (snd (main w)) ∧
    length (stored_rows (db (snd (main (snd (main w))))))
      = length (stored_rows (db (snd (main w)))).
Proof.
  intros Hlen.
  destruct (main_storage w) as (evs & new & _ & Hrows & _ & Hnew).
  set (w1 := snd (main w)) in *.
  destruct new as [|r new].
  { rewrite Hrows, app_nil_r in Hlen. lia. }
  destruct Hnew as (pn & cd & ts & Hread & Hne & Hgate & Hall); [done|].
  pose proof (parsed_batch_shaped _ _ _ Hread) as Hshape.
  pose proof (stored_batch_rows _ _ _ (proj2 Hshape) Hall) as Hstored.
  destruct (df_rows cd) as [|row rows] eqn:Hcd; [done|].
  apply Forall2_cons in Hstored as [Hrow _].
  destruct (gate_timestamp_of_stored _ _ _ _ _ _ _ Hshape Hgate Hcd Hrow)
    as (m & -> & Hm & Hfid).
  destruct (argo_measurements (db w1)) as [t1|] eqn:Ht1.
  2: { unfold stored_rows in Hrows at 1. rewrite Ht1 in Hrows.
       by destruct (stored_rows (db w)). }
  assert (tbl_rows t1 = stored_rows (db w) ++ r :: new) as Ht1rows.
  { rewrite <- Hrows. unfold stored_rows. by rewrite Ht1. }
  pose proof (count_matching_pos pn m (stored_rows (db w)) new r Hfid Hm) as Hpos.
  rewrite <- Ht1rows in Hpos.
  exists (Str pn), (Time (Some m)), (count_matching pn m (tbl_rows t1)).
  assert (select_count (Str pn) (Time (Some m)) (db w1)
          = Ok (count_matching pn m (tbl_rows t1))) as Hcount.
  { unfold select_count. by rewrite Ht1. }
  split; [done|]. split; [done|]. split; [apply main_returns|].
  assert (empty cd = false) as Hempty.
  { unfold empty. rewrite (proj1 Hshape), Hcd. done. }
  assert (main w1 =
    (Ok tt,
     add_events [Close] (add_events [Commit]
       (add_stdout [Data_already_exists_Skipping_insertion (Str pn)]
         (add_events [SelectCount (Str pn) (Time (Some m))]
           (add_events [Begin] (add_events [Connect]
             (add_stdout [Opening_NetCDF_file file_path; Successfully_parsed (len cd) pn]
               (add_stdout [Table_already_exists]
                 (add_events [HasTable "argo_measurements"] w1)))))))))) as Hmain.
  { rewrite main_eq, ensure_schema_eq, Ht1, Hread. cbv zeta. rewrite Hempty.
    rewrite with_connect_eq, with_begin_eq, check_and_load_eq, Hgate. simpl.
    rewrite Hcount. cbv zeta. by rewrite (proj2 (Z.ltb_lt _ _) Hpos). }
  rewrite Hmain. simpl. rewrite <- !app_assoc. done.
Qed.

(** ** app.py: the bounding-box query *)

#[local] Instance timestamp_desc_trans : Transitive timestamp_desc.
Proof. unfold timestamp_desc. intros a b c. lia. Qed.

#[local] Instance timestamp_desc_total : Total timestamp_desc.
Proof. unfold timestamp_desc. intros a b. lia. Qed.

#[local] Instance tuple_cells_inj : Inj (=) (=) tuple_cells.
Proof. intros [[[f1 a1] b1] t1] [[[f2 a2] b2] t2] [= -> -> -> ->]. done. Qed.

(** A result kept by the cache is returned as it is, whatever is stored. *)
Lemma run_query_cached query result_df s :
  cached query (cache_data s) = Some result_df →
  run_query query s = (Ok result_df, s).
Proof. intros H. unfold run_query. by rewrite H. Qed.

(** C9. Spatial query contract: for every bounding box, the corners read off
    a drawn rectangle give the query for that box, and that query, when it is
    issued to the engine (no result for the same text is in the cache, and
    the measurement table exists), returns a frame with the columns
    float_id, latitude, longitude, timestamp whose rows are without
    duplicates, are exactly the (float_id, latitude, longitude, timestamp) of
    the stored rows whose location intersects the SRID-4326 envelope of the
    box, none of another row, and are ordered by timestamp descending. *)
Theorem spatial_query_contract min_lon min_lat max_lon max_lat s t :
  cached (SpatialQuery min_lon min_lat max_lon max_lat) (cache_data s) = None →
  argo_measurements (app_db s) = Some t →
  (∀ corner ring others,
     drawn_query (([min_lon; min_lat] :: corner :: [max_lon; max_lat] :: ring) :: others)
       = Ok (SpatialQuery min_lon min_lat max_lon max_lat)) ∧
  ∃ tuples,
    fst (run_query (SpatialQuery min_lon min_lat max_lon max_lat) s)
      = Ok {| df_columns := ["float_id"; "latitude"; "longitude"; "timestamp"];
              df_rows := tuple_cells <$> tuples |} ∧
    NoDup (tuple_cells <$> tuples) ∧
    (∀ tup, tup ∈ tuples ↔
       ∃ r, r ∈ tbl_rows t ∧ in_envelope min_lon min_lat max_lon max_lat r ∧
            tup = (row_float_id r, row_latitude r, row_longitude r, row_timestamp r)) ∧
    StronglySorted (fun a b => tuple_timestamp b ≤ tuple_timestamp a) tuples.
Proof.
  intros Hmiss Ht. split; [done|].
  exists (select_spatial (SpatialQuery min_lon min_lat max_lon max_lat) (tbl_rows t)).
  split; [|split; [|split]].
  - unfold run_query, read_sql. rewrite Hmiss, Ht. done.
  - apply (NoDup_fmap_2 _). unfold select_spatial.
    rewrite merge_sort_Permutation. apply NoDup_remove_dups.
  - intros tup. unfold select_spatial.
    rewrite merge_sort_Permutation, elem_of_remove_dups, list_elem_of_fmap.
    unfold in_envelope, ST_MakeEnvelope, select_list. split.
    + intros (r & -> & Hr). exists r.
      apply list_elem_of_In, filter_In in Hr as [Hr Hhit].
      split; [by apply list_elem_of_In|done].
    + intros (r & Hr & Hhit & ->). exists r. split; [done|].
      apply list_elem_of_In, filter_In. split; [by apply list_elem_of_In|done].
  - unfold select_spatial. apply (StronglySorted_merge_sort timestamp_desc).
Qed.

(* ================================================================== *)
(** * Further properties of the scripts *)
(* ================================================================== *)

(** ** The parser *)

Lemma platform_number_of_Ok ds platform_number :
  platform_number_of ds = Ok platform_number ↔
  ∃ b values s,
    PLATFORM_NUMBER ds = Some (Bytes b :: values) ∧ decode_utf8 b = Some s ∧
    platform_number = strip s.
Proof.
  unfold platform_number_of. split.
  - destruct (PLATFORM_NUMBER ds) as [[|[x|t|x|b] values]|]; try done. simpl.
    destruct (decode_utf8 b) as [s|] eqn:Hs; [|done].
    intros [= <-]. by exists b, values, s.
  - intros (b & values & s & -> & Hs & ->). simpl. by rewrite Hs.
Qed.

Lemma read_core_data_can_parse path :
  (∃ platform_number core_data, read_core_data path = Ok (platform_number, core_data))
  ↔ can_parse path.
Proof.
  unfold read_core_data, can_parse, mbind, outcome_bind, getitem_columns. split.
  - intros (pn & cd & H).
    destruct (open_dataset path) as [ds|]; [|done].
    destruct (platform_number_of ds) as [pn'|] eqn:Hpn; [|done].
    apply platform_number_of_Ok in Hpn as (b & values & s & Hb & Hs & _).
    exists ds, b, values, s. split; [done|]. split; [done|]. split; [done|].
    apply locate_Ok.
    destruct (locate _ core_variables) as [ixs|]; [eauto|done].
  - intros (ds & b & values & s & -> & Hb & Hs & [ixs Hixs]%locate_Ok).
    rewrite (proj2 (platform_number_of_Ok ds (strip s))) by (by exists b, values, s).
    rewrite Hixs. simpl. eauto.
Qed.

(** X1. The parser asks nothing of storage and lets no exception out: it
    returns a batch or None, leaves the database and the requests made so
    far as they are, and prints two lines, the announcement and then either
    the number of rows of the batch it returns, with the float identifier,
    or the cause of the failure. *)
Theorem parse_reads_only path w :
  ∃ r msg,
    parse_argo_file path w = (Ok r, add_stdout [Opening_NetCDF_file path; msg] w) ∧
    db (snd (parse_argo_file path w)) = db w ∧
    events (snd (parse_argo_file path w)) = events w ∧
    match r with
    | Some batch =>
        ∃ platform_number,
          read_core_data path = Ok (platform_number, batch) ∧
          msg = Successfully_parsed (length (df_rows batch)) platform_number
    | None =>
        ∃ e, read_core_data path = Raise e ∧ msg = Error_parsing_file path e
    end.
Proof.
  rewrite parse_argo_file_eq.
  destruct (read_core_data path) as [[pn cd]|e].
  - exists (Some cd), (Successfully_parsed (len cd) pn). repeat split. by exists pn.
  - exists None, (Error_parsing_file path e). repeat split. by exists e.
Qed.

(** X2. The parser returns a batch exactly when the file opens, the first
    value of PLATFORM_NUMBER is a bytes object that decodes, and each of the
    six projected variables is a column of the frame; in every other case it
    returns None. *)
Theorem parse_succeeds_iff path w :
  ((∃ batch, fst (parse_argo_file path w) = Ok (Some batch)) ↔ can_parse path) ∧
  (fst (parse_argo_file path w) = Ok None ↔ ¬ can_parse path).
Proof.
  rewrite parse_argo_file_eq. rewrite <- read_core_data_can_parse.
  destruct (read_core_data path) as [[pn cd]|e]; simpl.
  - split; split.
    + eauto.
    + eauto.
    + done.
    + intros []. eauto.
  - split; split.
    + by intros [? ?].
    + by intros (? & ? & ?).
    + by intros _ (? & ? & ?).
    + done.
Qed.

Lemma unique_labels_NoDup names : ∀ seen,
  NoDup names → (∀ n, n ∈ names → n ∉ seen) → unique_labels seen names = names.
Proof.
  induction names as [|n names IH]; intros seen Hnd Hseen; simpl; [done|].
  apply NoDup_cons in Hnd as [Hn Hnd].
  destruct (decide (n ∈ seen)) as [Hin|_].
  { destruct (Hseen n); [by left|done]. }
  f_equal. apply IH; [done|].
  intros m Hm [->|Hin]%elem_of_cons; [done|].
  destruct (Hseen m); [by right|done].
Qed.

Lemma NoDup_List_filter {A} (f : A → bool) (l : list A) :
  NoDup l → NoDup (List.filter f l).
Proof.
  induction 1 as [|x l Hx _ IH]; simpl; [constructor|].
  destruct (f x); [|done]. constructor; [|done].
  intros [Hin _]%list_elem_of_In%filter_In. by apply list_elem_of_In in Hin.
Qed.

Lemma not_found_core_variables labels :
  not_found labels core_variables
  = List.filter (fun v => negb (is_column labels v)) core_variables.
Proof.
  unfold not_found. apply unique_labels_NoDup.
  - apply NoDup_List_filter. by apply (bool_decide_unpack _).
  - intros n _ []%elem_of_nil.
Qed.

(** X3. The cause that the parser reports for a file that opens, in the
    order of the source: a file without PLATFORM_NUMBER is reported as such,
    whatever else it lacks; and with a good PLATFORM_NUMBER, a file that
    lacks some of the six projected variables is reported by one KeyError
    that names every variable it lacks, in the order JULD, LATITUDE,
    LONGITUDE, PRES_ADJUSTED, TEMP_ADJUSTED, PSAL_ADJUSTED. *)
Theorem parse_reports_every_missing_variable path ds w :
  open_dataset path = Ok ds →
  (PLATFORM_NUMBER ds = None →
     parse_argo_file path w =
       (Ok None,
        add_stdout [Opening_NetCDF_file path;
                    Error_parsing_file path (AttributeError "PLATFORM_NUMBER")] w)) ∧
  (∀ platform_number missing,
     platform_number_of ds = Ok platform_number →
     missing ∈ core_variables →
     get_loc missing (df_columns (to_dataframe ds)) = None →
     parse_argo_file path w =
       (Ok None,
        add_stdout
          [Opening_NetCDF_file path;
           Error_parsing_file path
             (KeyError_not_in_index
                (List.filter
                   (fun v => negb (is_column (df_columns (to_dataframe ds)) v))
                   core_variables))] w)).
Proof.
  intros Hopen. split.
  - intros Hpn. rewrite parse_argo_file_eq.
    unfold read_core_data, mbind, outcome_bind. rewrite Hopen.
    unfold platform_number_of. by rewrite Hpn.
  - intros pn missing Hpn Hin Hmissing.
    rewrite parse_argo_file_eq.
    unfold read_core_data, mbind, outcome_bind. rewrite Hopen, Hpn.
    unfold getitem_columns, locate. rewrite not_found_core_variables.
    assert (missing ∈ List.filter
              (fun v => negb (is_column (df_columns (to_dataframe ds)) v))
              core_variables) as Hfound.
    { apply list_elem_of_In, filter_In. split; [by apply list_elem_of_In|].
      unfold is_column. by rewrite Hmissing. }
    destruct (List.filter _ core_variables) as [|v vs]; [|done].
    by apply elem_of_nil in Hfound.
Qed.

(** X4. A batch that the parser returns is a single-float batch in the
    columns of the data model: its columns are timestamp, latitude,
    longitude, pressure, temperature, salinity, float_id, in this order;
    every row has seven cells, and its float_id is the same string, the
    stripped decoding of the first value of PLATFORM_NUMBER. *)
Theorem parsed_batch_is_single_float path w batch w' :
  parse_argo_file path w = (Ok (Some batch), w') →
  ∃ ds b values s,
    open_dataset path = Ok ds ∧
    PLATFORM_NUMBER ds = Some (Bytes b :: values) ∧
    decode_utf8 b = Some s ∧
    df_columns batch =
      ["timestamp"; "latitude"; "longitude"; "pressure"; "temperature"; "salinity";
       "float_id"] ∧
    ∀ row, row ∈ df_rows batch →
      length row = 7%nat ∧
      row_getitem (df_columns batch) row "float_id" = Ok (Str (strip s)).
Proof.
  rewrite parse_argo_file_eq.
  destruct (read_core_data path) as [[pn cd]|e] eqn:Hread; [|done].
  intros [= <- _].
  destruct (read_core_data_Ok _ _ _ Hread) as (ds & Hopen & Hpn & Hcols & _).
  apply platform_number_of_Ok in Hpn as (b & values & s & Hb & Hs & ->).
  exists ds, b, values, s. split; [done|]. split; [done|]. split; [done|].
  split; [done|]. intros row Hrow. rewrite Hcols.
  by destruct (parsed_rows_shape _ _ _ _ Hread Hrow)
    as (ts & lat & lon & pres & temp & sal & -> & _).
Qed.

Lemma list_ascii_rev_app s1 : ∀ s2,
  list_ascii_of_string (String.rev_app s1 s2)
  = reverse (list_ascii_of_string s1) ++ list_ascii_of_string s2.
Proof.
  induction s1 as [|c s1 IH]; intros s2; simpl; [done|].
  rewrite IH, reverse_cons, <- app_assoc. done.
Qed.

Lemma list_ascii_rev s :
  list_ascii_of_string (String.rev s) = reverse (list_ascii_of_string s).
Proof. unfold String.rev. rewrite list_ascii_rev_app. simpl. by rewrite app_nil_r. Qed.

Lemma lstrip_head s c :
  head (list_ascii_of_string (lstrip s)) = Some c → isspace c = false.
Proof.
  induction s as [|a s IH]; simpl; [done|].
  destruct (isspace a) eqn:Ha; [done|]. simpl. by intros [= <-].
Qed.

Lemma lstrip_suffix s :
  ∃ pre, list_ascii_of_string s = pre ++ list_ascii_of_string (lstrip s).
Proof.
  induction s as [|a s [pre IH]]; simpl; [by exists []|].
  destruct (isspace a).
  - exists (a :: pre). simpl. by rewrite IH.
  - by exists [].
Qed.

Lemma strip_trimmed s : trimmed (strip s).
Proof.
  unfold trimmed, strip. intros c. rewrite list_ascii_rev.
  rewrite head_reverse, last_reverse.
  set (y := lstrip s). set (x := lstrip (String.rev y)).
  intros [Hc|Hc]; [|by apply (lstrip_head (String.rev y))].
  destruct (lstrip_suffix (String.rev y)) as [pre Hpre]. fold x in Hpre.
  apply (lstrip_head s). fold y.
  rewrite <- last_reverse, <- list_ascii_rev, Hpre.
  destruct (list_ascii_of_string x) as [|a l] eqn:Hx using rev_ind; [done|].
  by rewrite app_assoc, !last_snoc in *.
Qed.

(** X5. The float identifier of a parsed batch is trimmed: the string in the
    float_id column of every row neither begins nor ends with ASCII white
    space, so the padding of PLATFORM_NUMBER does not reach storage. *)
Theorem parsed_float_id_is_trimmed path w batch w' :
  parse_argo_file path w = (Ok (Some batch), w') →
  ∃ platform_number,
    trimmed platform_number ∧
    ∀ row, row ∈ df_rows batch →
      row_getitem (df_columns batch) row "float_id" = Ok (Str platform_number).
Proof.
  rewrite parse_argo_file_eq.
  destruct (read_core_data path) as [[pn cd]|e] eqn:Hread; [|done].
  intros [= <- _].
  destruct (read_core_data_Ok _ _ _ Hread) as (ds & _ & Hpn & Hcols & _).
  apply platform_number_of_Ok in Hpn as (b & values & s & _ & _ & ->).
  exists (strip s). split; [apply strip_trimmed|].
  intros row Hrow. rewrite Hcols.
  by destruct (parsed_rows_shape _ _ _ _ Hread Hrow)
    as (ts & lat & lon & pres & temp & sal & -> & _).
Qed.

(** ** The main block *)

Lemma appended_nil t : appended t [] = t.
Proof. unfold appended. rewrite app_nil_r. by destruct t. Qed.

(** The table after the connection block: the table before it, with rows
    appended or not. *)
Lemma transaction_table argo_data w t :
  argo_measurements (db w) = Some t →
  ∃ rows,
    argo_measurements (db (snd (with_connect (with_begin (check_and_load argo_data)) w)))
      = Some (appended t rows).
Proof.
  intros Ht. rewrite with_connect_eq, with_begin_eq, check_and_load_eq.
  destruct (gate_parameters argo_data) as [[ts fid]|e]; simpl.
  2: { exists []. by rewrite appended_nil. }
  destruct (select_count fid ts (db w)) as [n|e]; simpl.
  2: { exists []. by rewrite appended_nil. }
  destruct (0 <? n); simpl.
  { exists []. by rewrite appended_nil. }
  destruct (make_records _ _) as [records|e]; simpl.
  2: { exists []. by rewrite appended_nil. }
  destruct (insert_rows_spec records (db w) t Ht) as (rows & Htab & _).
  destruct (insert_rows records (db w)) as [[[]|e] d]; simpl in *.
  - by exists rows.
  - exists []. by rewrite appended_nil.
Qed.

Lemma table_after_run w :
  ∃ t, argo_measurements (db (snd (main w))) = Some t.
Proof.
  rewrite main_eq. cbv zeta.
  assert (∃ t0, argo_measurements (db (snd (ensure_schema w))) = Some t0) as (t0 & Ht0).
  { rewrite ensure_schema_eq. simpl.
    destruct (argo_measurements (db w)) as [t0|] eqn:Hw; simpl; [|by eexists].
    exists t0. by rewrite Hw. }
  destruct (read_core_data file_path) as [[pn cd]|e]; [|by exists t0].
  destruct (empty cd); [by exists t0|].
  match goal with
  | |- context [with_connect ?body ?w1] =>
      destruct (transaction_table cd w1 t0 Ht0) as (rows & Hrows);
      destruct (with_connect body w1) as [[[]|e] w2]
  end; by eexists.
Qed.

(** X6. A run of the main block never drops the measurement table and never
    alters it beyond appending: when the table exists before the run, it
    exists after the run, with the same columns, and the rows from before
    the run are the head of its rows, unchanged and in place. *)
Theorem run_keeps_the_table w t0 :
  argo_measurements (db w) = Some t0 →
  ∃ t rows,
    argo_measurements (db (snd (main w))) = Some t ∧
    tbl_columns t = tbl_columns t0 ∧
    tbl_rows t = tbl_rows t0 ++ rows.
Proof.
  intros Hw. rewrite main_eq. cbv zeta.
  assert (argo_measurements (db (snd (ensure_schema w))) = Some t0) as Ht0.
  { by rewrite db_ensure_schema_exists by (by rewrite Hw). }
  destruct (read_core_data file_path) as [[pn cd]|e].
  2: { exists t0, []. by rewrite app_nil_r. }
  destruct (empty cd).
  { exists t0, []. by rewrite app_nil_r. }
  match goal with
  | |- context [with_connect ?body ?w1] =>
      destruct (transaction_table cd w1 t0 Ht0) as (rows & Hrows);
      destruct (with_connect body w1) as [[[]|e] w2]
  end; by exists (appended t0 rows), rows.
Qed.

(** X7. A run of the main block adds the whole batch or nothing: the rows
    stored after the run are those stored before it followed either by no
    row or by exactly as many rows as the parsed batch has, never by a part
    of the batch. *)
Theorem run_adds_whole_batch_or_nothing w :
  ∃ new,
    stored_rows (db (snd (main w))) = stored_rows (db w) ++ new ∧
    (new = [] ∨
     ∃ platform_number batch,
       read_core_data file_path = Ok (platform_number, batch) ∧
       df_rows batch ≠ [] ∧
       length new = length (df_rows batch)).
Proof.
  destruct (main_storage w) as (evs & new & _ & Hrows & _ & Hnew).
  exists new. split; [done|].
  destruct new as [|r new]; [by left|]. right.
  destruct Hnew as (pn & cd & ts & Hread & Hne & _ & Hall); [done|].
  exists pn, cd. split; [done|]. split; [done|].
  apply Forall2_length in Hall. by rewrite length_fmap in Hall.
Qed.

Lemma stored_batch_rows_populated platform_number rows new :
  Forall (batch_row_shaped platform_number) rows →
  Forall2 (stored_as platform_number) rows new →
  Forall (fun r => populated r ∧ row_float_id r = platform_number) new.
Proof.
  intros Hshape Hstored.
  induction Hstored as [|row r rows' new' Hst _ IH]; [constructor|].
  apply Forall_cons in Hshape as [(ts&lat&lon&pres&temp&sal&Hrow&Hna) Hshape].
  constructor; [|by apply IH].
  destruct Hst as (id&t&a&b&p&q&s&->&->).
  injection Hrow as <- <- <- <- <- <-.
  destruct Hna as (_&?&?&?&?&?). unfold populated. simpl.
  repeat split; by intros ->.
Qed.

(** X8. Every row that a run of the main block adds to the table is fully
    populated (none of latitude, longitude, pressure, temperature, salinity
    is NaN), and all the rows of one run carry one and the same float
    identifier. *)
Theorem added_rows_are_populated w :
  ∃ new,
    stored_rows (db (snd (main w))) = stored_rows (db w) ++ new ∧
    Forall populated new ∧
    (∀ r r', r ∈ new → r' ∈ new → row_float_id r = row_float_id r').
Proof.
  destruct (main_storage w) as (evs & new & _ & Hrows & _ & Hnew).
  exists new. split; [done|].
  destruct new as [|r0 new].
  { split; [constructor|]. by intros r r' ?%elem_of_nil. }
  destruct Hnew as (pn & cd & ts & Hread & _ & _ & Hall); [done|].
  destruct (parsed_batch_shaped _ _ _ Hread) as [_ Hshape].
  pose proof (stored_batch_rows _ _ _ Hshape Hall) as Hstored.
  pose proof (stored_batch_rows_populated _ _ _ Hshape Hstored) as Hpop.
  split.
  - eapply Forall_impl; [exact Hpop|]. by intros r [? _].
  - intros r r' Hr Hr'.
    destruct (proj1 (Forall_forall _ _) Hpop r Hr) as [_ ->].
    by destruct (proj1 (Forall_forall _ _) Hpop r' Hr') as [_ ->].
Qed.

(** X9. The gate is coarse: when storage already holds a row of the batch's
    float stamped at or after the least timestamp of the batch, the run
    inserts nothing, whether or not the rows of the batch are stored: it
    makes the count query, commits, and leaves the database as it was. *)
Theorem covered_batch_is_skipped w platform_number batch m r :
  read_core_data file_path = Ok (platform_number, batch) →
  gate_parameters batch = Ok (Time (Some m), Str platform_number) →
  r ∈ stored_rows (db w) →
  row_float_id r = platform_number →
  m ≤ row_timestamp r →
  db (snd (main w)) = db w ∧
  events (snd (main w)) =
    events w ++ [HasTable "argo_measurements"; Connect; Begin;
                 SelectCount (Str platform_number) (Time (Some m)); Commit; Close].
Proof.
  intros Hread Hgate Hr Hfid Hm.
  destruct (argo_measurements (db w)) as [t|] eqn:Ht.
  2: { unfold stored_rows in Hr. rewrite Ht in Hr. by apply elem_of_nil in Hr. }
  assert (tbl_rows t = stored_rows (db w)) as Hrows.
  { unfold stored_rows. by rewrite Ht. }
  apply list_elem_of_split in Hr as (l & l' & Hsplit).
  pose proof (count_matching_pos platform_number m l l' r Hfid Hm) as Hpos.
  rewrite <- Hsplit, <- Hrows in Hpos.
  destruct (parsed_batch_shaped _ _ _ Hread) as [Hcols _].
  assert (empty batch = false) as Hempty.
  { unfold empty. rewrite Hcols.
    destruct (df_rows batch) eqn:Hb; [|done].
    unfold gate_parameters, getitem in Hgate. rewrite Hcols, Hb in Hgate.
    discriminate Hgate. }
  rewrite main_eq, ensure_schema_eq, Ht, Hread. cbv zeta. rewrite Hempty.
  rewrite with_connect_eq, with_begin_eq, check_and_load_eq, Hgate. simpl.
  unfold select_count. rewrite Ht. cbv zeta.
  rewrite (proj2 (Z.ltb_lt _ _) Hpos). simpl.
  split; [done|]. by rewrite <- !app_assoc.
Qed.

Lemma stdout_ensure_schema w :
  stdout (snd (ensure_schema w)) = stdout w ++ schema_lines (db w).
Proof.
  rewrite ensure_schema_eq. unfold schema_lines. simpl.
  by destruct (argo_measurements (db w)).
Qed.

Ltac is_in_events :=
  solve [repeat first [apply list_elem_of_here | apply list_elem_of_further]].

(** One fact about a trace that is written out: a membership that holds or
    fails, or a last line that is an error report or not. *)
Ltac trace_fact :=
  match goal with
  | |- (∃ _, _) → _ =>
      first [ intros _; is_in_events
            | let e := fresh in let H := fresh in intros [e H]; discriminate H ]
  | |- _ ∈ _ → _ =>
      first [ intros _; first [solve [eexists; reflexivity] | not_in_events]
            | let H := fresh in intros H; exfalso; revert H; not_in_events ]
  end.

(** A case of the run: the requests and the lines it adds after the schema
    step, given with their lengths. *)
Tactic Notation "run_case" constr(Hrun) open_constr(evs) open_constr(msgs) :=
  eapply (Hrun evs msgs);
  [ simpl; rewrite <- ?app_assoc, ?app_nil_r; reflexivity
  | simpl; rewrite <- ?app_assoc; reflexivity
  | trace_fact
  | discriminate
  | trace_fact ].

(** X10. Every rollback is reported: a run of the main block returns
    normally, and when its transaction was rolled back the last line it
    prints is the report of an error during ingestion; a transaction that is
    committed is not rolled back. *)
Theorem every_rollback_is_reported w :
  ∃ evs msgs,
    events (snd (main w)) = events w ++ evs ∧
    stdout (snd (main w)) = stdout w ++ msgs ∧
    fst (main w) = Ok tt ∧
    (Rollback ∈ evs → ∃ e, last msgs = Some (An_error_occurred_during_ingestion e)) ∧
    (Commit ∈ evs → Rollback ∉ evs).
Proof.
  pose proof (events_ensure_schema w) as Hev.
  pose proof (stdout_ensure_schema w) as Hout.
  assert (∀ evs msgs,
    events (snd (main w)) = events (snd (ensure_schema w)) ++ evs →
    stdout (snd (main w)) = stdout (snd (ensure_schema w)) ++ msgs →
    (Rollback ∈ evs → ∃ e, last msgs = Some (An_error_occurred_during_ingestion e)) →
    msgs ≠ [] →
    (Commit ∈ evs → Rollback ∉ evs) →
    ∃ evs msgs,
      events (snd (main w)) = events w ++ evs ∧
      stdout (snd (main w)) = stdout w ++ msgs ∧
      fst (main w) = Ok tt ∧
      (Rollback ∈ evs → ∃ e, last msgs = Some (An_error_occurred_during_ingestion e)) ∧
      (Commit ∈ evs → Rollback ∉ evs)) as Hrun.
  { intros evs msgs Hevs Hmsgs Hiff Hne Hcommit.
    assert (∀ ev, ev = Rollback ∨ ev = Commit →
              (ev ∈ schema_events (db w) ++ evs ↔ ev ∈ evs)) as Hschema.
    { intros ev Hkind. rewrite elem_of_app. split; [|by right].
      intros [Hin|Hin]; [exfalso; revert Hin|done].
      unfold schema_events.
      destruct Hkind as [-> | ->]; destruct (argo_measurements (db w)); not_in_events. }
    exists (schema_events (db w) ++ evs), (schema_lines (db w) ++ msgs).
    rewrite Hevs, Hmsgs, Hev, Hout, <- !app_assoc.
    split; [done|]. split; [done|]. split; [apply main_returns|].
    rewrite !Hschema by auto. rewrite last_app.
    destruct (last msgs) as [m|] eqn:Hlast; [done|].
    by apply last_None in Hlast. }
  rewrite main_eq in Hrun |- *. cbv zeta in *.
  set (w0 := snd (ensure_schema w)) in *. clearbody w0.
  destruct (read_core_data file_path) as [[pn cd]|e].
  2: { run_case Hrun ([] : list Event) ([_; _] : list Message). }
  destruct (empty cd).
  { run_case Hrun ([] : list Event) ([_; _] : list Message). }
  rewrite with_connect_eq, with_begin_eq, check_and_load_eq in Hrun |- *.
  destruct (gate_parameters cd) as [[ts fid]|e]; simpl in *.
  2: { run_case Hrun ([_; _; _; _] : list Event) ([_; _; _] : list Message). }
  destruct (select_count fid ts _) as [n|e]; simpl in *.
  2: { run_case Hrun ([_; _; _; _; _] : list Event) ([_; _; _] : list Message). }
  destruct (0 <? n); simpl in *.
  { run_case Hrun ([_; _; _; _; _] : list Event) ([_; _; _] : list Message). }
  destruct (make_records _ _) as [records|e]; simpl in *.
  2: { run_case Hrun ([_; _; _; _; _] : list Event) ([_; _; _; _] : list Message). }
  destruct (insert_rows records _) as [[[]|e] d]; simpl in *.
  - run_case Hrun ([_; _; _; _; _; _] : list Event) ([_; _; _; _] : list Message).
  - run_case Hrun ([_; _; _; _; _; _] : list Event) ([_; _; _; _] : list Message).
Qed.

(** ** app.py: the cache of [run_query] and the map tab *)

Lemma elem_of_select_spatial min_lon min_lat max_lon max_lat rows tup :
  tup ∈ select_spatial (SpatialQuery min_lon min_lat max_lon max_lat) rows ↔
  ∃ r, r ∈ rows ∧ in_envelope min_lon min_lat max_lon max_lat r ∧ tup = select_list r.
Proof.
  unfold select_spatial.
  rewrite merge_sort_Permutation, elem_of_remove_dups, list_elem_of_fmap.
  unfold in_envelope, ST_MakeEnvelope. split.
  - intros (r & -> & Hr). exists r.
    apply list_elem_of_In, filter_In in Hr as [Hr Hhit].
    split; [by apply list_elem_of_In|done].
  - intros (r & Hr & Hhit & ->). exists r. split; [done|].
    apply list_elem_of_In, filter_In. split; [by apply list_elem_of_In|done].
Qed.

Lemma NoDup_select_spatial q rows : NoDup (select_spatial q rows).
Proof.
  destruct q. unfold select_spatial.
  rewrite merge_sort_Permutation. apply NoDup_remove_dups.
Qed.

(** X11. A result is computed once per query text: after [run_query] has
    returned a frame for a query, asking the same query again returns that
    same frame and changes nothing, whatever the database holds by then. *)
Theorem run_query_repeats_its_result query s result_df :
  fst (run_query query s) = Ok result_df →
  ∀ d,
    let s' := {| app_db := d; cache_data := cache_data (snd (run_query query s)) |} in
    run_query query s' = (Ok result_df, s').
Proof.
  unfold run_query at 1 2.
  destruct (cached query (cache_data s)) as [df|] eqn:Hhit; simpl.
  - intros [= ->] d. unfold run_query. simpl. by rewrite Hhit.
  - destruct (read_sql query (app_db s)) as [df|e]; simpl; [|done].
    intros [= ->] d. unfold run_query. simpl.
    by rewrite decide_True.
Qed.

(** X12. An exception is not kept: when [run_query] raises, the state of the
    app is as before, no result is cached for the query, and the next call
    with the same query goes to the engine again. *)
Theorem failed_query_is_asked_again query s e :
  fst (run_query query s) = Raise e →
  snd (run_query query s) = s ∧
  cached query (cache_data s) = None ∧
  ∀ d,
    fst (run_query query {| app_db := d; cache_data := cache_data s |})
      = read_sql query d.
Proof.
  unfold run_query at 1 2.
  destruct (cached query (cache_data s)) as [df|] eqn:Hhit; simpl; [done|].
  destruct (read_sql query (app_db s)) as [df|e'] eqn:Hread; simpl; [done|].
  intros _. split; [done|]. split; [done|].
  intros d. unfold run_query. simpl. rewrite Hhit.
  by destruct (read_sql query d).
Qed.

(** X13. Reading the corners is not guarded: a drawing without coordinates,
    or whose ring has fewer than three points, makes the tab raise an
    IndexError or a ValueError to its caller instead of showing an error,
    and the state of the app is left as it was. *)
Theorem short_ring_raises_out_of_the_tab s ring others :
  (length ring < 3)%nat →
  explore_by_map (Some []) s = (Raise IndexError, s) ∧
  ∃ e, (e = IndexError ∨ e = ValueError) ∧
       explore_by_map (Some (ring :: others)) s = (Raise e, s).
Proof.
  intros Hlen. split; [done|].
  unfold explore_by_map, drawn_query, mbind, outcome_bind.
  destruct ring as [|p0 [|p1 [|p2 ring]]]; simpl in *; [| | |lia].
  - exists IndexError. auto.
  - destruct (unpack_pair p0) as [[a b]|e] eqn:Hp0; simpl.
    + exists IndexError. auto.
    + exists e. split; [|done]. right.
      destruct p0 as [|a [|b [|c p0]]]; simpl in Hp0; congruence.
  - destruct (unpack_pair p0) as [[a b]|e] eqn:Hp0; simpl.
    + exists IndexError. auto.
    + exists e. split; [|done]. right.
      destruct p0 as [|a [|b [|c p0]]]; simpl in Hp0; congruence.
Qed.

(** X14. An error of the engine is shown, not raised: when the measurement
    table does not exist and no result is cached for the drawn box, the tab
    returns normally, shows the database error, and caches nothing. *)
Theorem database_error_is_shown s min_lon min_lat max_lon max_lat corner ring others :
  cached (SpatialQuery min_lon min_lat max_lon max_lat) (cache_data s) = None →
  argo_measurements (app_db s) = None →
  explore_by_map
    (Some (([min_lon; min_lat] :: corner :: [max_lon; max_lat] :: ring) :: others)) s
  = (Ok (Some (A_database_error_occurred (UndefinedTable "argo_measurements"))), s).
Proof.
  intros Hmiss Hnone. unfold explore_by_map. simpl.
  unfold run_query, read_sql. by rewrite Hmiss, Hnone.
Qed.

(** X15. The tab shows "No floats found" exactly when no stored location
    intersects the drawn box, and the table of results otherwise (for a box
    whose query reaches the engine, over an existing table). *)
Theorem no_floats_found_iff s t min_lon min_lat max_lon max_lat corner ring others :
  cached (SpatialQuery min_lon min_lat max_lon max_lat) (cache_data s) = None →
  argo_measurements (app_db s) = Some t →
  let shown :=
    fst (explore_by_map
           (Some (([min_lon; min_lat] :: corner :: [max_lon; max_lat] :: ring) :: others)) s) in
  (shown = Ok (Some No_floats_found) ↔
   ∀ r, r ∈ tbl_rows t → ¬ in_envelope min_lon min_lat max_lon max_lat r) ∧
  (shown ≠ Ok (Some No_floats_found) →
   ∃ result_df, shown = Ok (Some (Results result_df)) ∧ df_rows result_df ≠ []).
Proof.
  intros Hmiss Ht. cbv zeta. unfold explore_by_map.
  assert (drawn_query (([min_lon; min_lat] :: corner :: [max_lon; max_lat] :: ring) :: others)
          = Ok (SpatialQuery min_lon min_lat max_lon max_lat)) as -> by done.
  unfold run_query, read_sql. rewrite Hmiss, Ht.
  set (tuples := select_spatial (SpatialQuery min_lon min_lat max_lon max_lat) (tbl_rows t)).
  assert (tuples = [] ↔
          ∀ r, r ∈ tbl_rows t → ¬ in_envelope min_lon min_lat max_lon max_lat r) as Hnil.
  { split.
    - intros Hnil r Hr Hin.
      assert (select_list r ∈ tuples) as Hmem
        by (apply elem_of_select_spatial; eauto).
      rewrite Hnil in Hmem. by apply elem_of_nil in Hmem.
    - intros Hnone. destruct tuples as [|tup tuples'] eqn:Htup; [done|].
      assert (tup ∈ tuples) as (r & Hr & Hin & _)%elem_of_select_spatial
        by (rewrite Htup; apply list_elem_of_here).
      by destruct (Hnone r Hr). }
  rewrite <- Hnil. clear Hnil. unfold empty.
  destruct tuples as [|tup tuples']; csimpl.
  - split; [done|]. by intros [].
  - split; [split; [done|done]|]. intros _. eexists. split; [reflexivity|done].
Qed.

(** ** app.py: the metrics, the profile plot and the chat *)

Lemma elem_of_unique_from s : ∀ seen c,
  c ∈ unique_from seen s ↔ c ∈ s ∧ c ∉ seen.
Proof.
  induction s as [|a s IH]; intros seen c; simpl.
  - split; [by intros ?%elem_of_nil|by intros [?%elem_of_nil _]].
  - destruct (decide (a ∈ seen)) as [Ha|Ha].
    + rewrite IH, elem_of_cons. split.
      * intros [Hc Hseen]. auto.
      * intros [[->|Hc] Hseen]; [done|auto].
    + rewrite !elem_of_cons, IH, elem_of_cons. split.
      * intros [->|[Hc Hseen]]; [auto|]. split; [auto|]. intros Hin. apply Hseen. by right.
      * intros [[->|Hc] Hseen]; [by left|].
        destruct (decide (c = a)) as [->|Hne]; [by left|right].
        split; [done|]. by intros [?|?].
Qed.

Lemma NoDup_unique_from s : ∀ seen, NoDup (unique_from seen s).
Proof.
  induction s as [|a s IH]; intros seen; simpl; [constructor|].
  destruct (decide (a ∈ seen)); [apply IH|].
  constructor; [|apply IH].
  rewrite elem_of_unique_from, elem_of_cons. intros [_ Hout]. apply Hout. by left.
Qed.

Lemma unique_from_length s : ∀ seen, (length (unique_from seen s) ≤ length s)%nat.
Proof.
  induction s as [|a s IH]; intros seen; simpl; [lia|].
  destruct (decide (a ∈ seen)); simpl.
  - specialize (IH seen). lia.
  - specialize (IH (a :: seen)). lia.
Qed.

(** X16. The metrics of the map tab, for the result that the engine gives
    for a box over an existing table: the panel is built without error;
    "Total Measurements" is the number of rows of the result; "Floats Found"
    is the number of options of the float selector and never exceeds the
    total; and the options are, without repetition, exactly the float
    identifiers of the stored rows whose location intersects the box. *)
Theorem metrics_of_a_result min_lon min_lat max_lon max_lat d t result_df :
  argo_measurements d = Some t →
  read_sql (SpatialQuery min_lon min_lat max_lon max_lat) d = Ok result_df →
  ∃ panel,
    results_panel result_df = Ok panel ∧
    total_measurements panel = length (df_rows result_df) ∧
    floats_found panel = length (float_options panel) ∧
    (floats_found panel ≤ total_measurements panel)%nat ∧
    NoDup (float_options panel) ∧
    (∀ c, c ∈ float_options panel ↔
       ∃ r, r ∈ tbl_rows t ∧ in_envelope min_lon min_lat max_lon max_lat r ∧
            c = Str (row_float_id r)).
Proof.
  intros Ht Hread.
  set (tuples := select_spatial (SpatialQuery min_lon min_lat max_lon max_lat) (tbl_rows t)).
  assert (result_df =
            {| df_columns := ["float_id"; "latitude"; "longitude"; "timestamp"];
               df_rows := tuple_cells <$> tuples |}) as ->.
  { unfold read_sql in Hread. rewrite Ht in Hread. by injection Hread. }
  clear Hread.
  set (float_ids := (fun tup : tuple => Str (fst (fst (fst tup)))) <$> tuples).
  assert (getitem
            {| df_columns := ["float_id"; "latitude"; "longitude"; "timestamp"];
               df_rows := tuple_cells <$> tuples |} "float_id" = Ok float_ids) as Hget.
  { unfold getitem. simpl. rewrite <- list_fmap_compose. f_equal.
    apply list_fmap_ext. by intros _ [[[f a] b] ts] _. }
  assert (List.filter (fun c => negb (isna c)) float_ids = float_ids) as Hna.
  { apply filter_notna_id. apply Forall_fmap, Forall_forall. by intros tup _. }
  unfold results_panel. rewrite Hget. simpl.
  eexists. split; [reflexivity|]. simpl. unfold nunique, len, unique. simpl.
  rewrite Hna.
  split; [done|]. split; [done|]. split.
  { etrans; [apply unique_from_length|]. unfold float_ids. by rewrite !length_fmap. }
  split; [apply NoDup_unique_from|].
  intros c. rewrite elem_of_unique_from. unfold float_ids.
  rewrite list_elem_of_fmap. split.
  - intros [(tup & -> & (r & Hr & Hin & ->)%elem_of_select_spatial) _].
    exists r. done.
  - intros (r & Hr & Hin & ->). split; [|by apply not_elem_of_nil].
    exists (select_list r). split; [done|]. apply elem_of_select_spatial. eauto.
Qed.

Lemma plottable_nil columns :
  plottable columns = [] ↔ Forall (fun col => col ∈ not_plotted) columns.
Proof.
  unfold plottable. induction columns as [|col columns IH]; simpl.
  - split; [constructor|done].
  - destruct (decide (col ∈ not_plotted)) as [Hin|Hout].
    + rewrite bool_decide_true by done. simpl. rewrite IH.
      split; [by constructor|by intros [_ ?]%Forall_cons].
    + rewrite bool_decide_false by done. simpl.
      split; [done|by intros [? _]%Forall_cons].
Qed.

Lemma elem_of_plottable columns col :
  col ∈ plottable columns ↔ col ∈ columns ∧ col ∉ not_plotted.
Proof.
  unfold plottable. rewrite list_elem_of_In, filter_In, <- list_elem_of_In.
  rewrite negb_true_iff, bool_decide_eq_false. done.
Qed.

(** X17. [create_profile_plot] warns that there is nothing to plot exactly
    for the frames all of whose columns are among id, float_id, timestamp,
    latitude, longitude, location and pressure, so for the result of the
    box query itself, and then it asks for no selection. *)
Theorem plot_warns_iff_nothing_plottable df y_axis :
  (create_profile_plot df y_axis = No_plottable_data_columns_found ↔
   Forall (fun col => col ∈ not_plotted) (df_columns df)) ∧
  (df_columns df = ["float_id"; "latitude"; "longitude"; "timestamp"] →
   create_profile_plot df y_axis = No_plottable_data_columns_found).
Proof.
  assert (create_profile_plot df y_axis = No_plottable_data_columns_found ↔
          Forall (fun col => col ∈ not_plotted) (df_columns df)) as Hiff.
  { rewrite <- plottable_nil. unfold create_profile_plot.
    destruct (plottable (df_columns df)) as [|col columns]; [done|].
    split; [|done]. by destruct (selectbox (col :: columns)) as [[|c x]|]. }
  split; [done|]. intros Hcols. apply Hiff. rewrite Hcols.
  repeat constructor; unfold not_plotted; rewrite !elem_of_cons; auto 10.
Qed.

(** X18. What is plotted: whenever the selector returns one of the options
    it is given, a figure that [create_profile_plot] returns plots, over the
    frame it was given, a column of that frame that is none of id, float_id,
    timestamp, latitude, longitude, location and pressure, against the
    requested y axis, which is reversed and labelled "Pressure (dbar)". *)
Theorem plot_shows_a_measured_variable df y_axis fig :
  (∀ options x, selectbox options = Some x → x ∈ options) →
  create_profile_plot df y_axis = Plotted fig →
  fig_data fig = df ∧
  fig_x fig ∈ df_columns df ∧
  (fig_x fig ∉ not_plotted) ∧
  fig_x fig ≠ "" ∧
  fig_y fig = y_axis ∧
  fig_yaxis_autorange fig = Some "reversed" ∧
  fig_labels fig !! y_axis = Some "Pressure (dbar)".
Proof.
  intros Hselect. unfold create_profile_plot.
  destruct (plottable (df_columns df)) as [|col columns] eqn:Hcols; [done|].
  destruct (selectbox (col :: columns)) as [[|c x]|] eqn:Hsel; try done.
  intros [= <-]. simpl.
  apply Hselect in Hsel. rewrite <- Hcols in Hsel.
  apply elem_of_plottable in Hsel as [Hin Hout].
  split; [done|]. split; [done|]. split; [done|]. split; [done|].
  split; [done|]. split; [done|]. apply lookup_insert_eq.
Qed.

Lemma chat_session_snoc inputs chat_input :
  chat_session (inputs ++ [chat_input])
  = Some (chat_tab (chat_session inputs) chat_input).
Proof. unfold chat_session. by rewrite foldl_app. Qed.

(** X19. The history of the chat is the sequence of exchanges: after any
    sequence of runs of the tab, the messages of the session are, in order,
    for each prompt that was sent, the user's message with that prompt and
    then the assistant's message, which is the agent's output or, when the
    agent raised, the text of the error; runs without a prompt add nothing,
    no message is ever removed or rewritten, and the roles alternate. *)
Theorem chat_history_is_the_exchanges inputs :
  default [] (chat_session inputs) = sent_prompts inputs ≫= exchange ∧
  (∀ chat_input,
     ∃ added,
       chat_tab (chat_session inputs) chat_input
         = default [] (chat_session inputs) ++ added ∧
       (added = [] ∨ ∃ prompt answer,
          chat_input = Some prompt ∧
          added = [ {| role := user; content := Markdown prompt |};
                    {| role := assistant; content := answer |} ])) ∧
  (∀ i m, default [] (chat_session inputs) !! i = Some m →
     role m = if Nat.even i then user else assistant).
Proof.
  assert (default [] (chat_session inputs) = sent_prompts inputs ≫= exchange) as Hhist.
  { induction inputs as [|chat_input inputs IH] using rev_ind; [done|].
    rewrite chat_session_snoc. unfold sent_prompts in *.
    rewrite bind_app, bind_app, <- IH. simpl. unfold chat_tab.
    destruct chat_input as [[|c p]|]; simpl; by rewrite ?app_nil_r. }
  split; [done|]. split.
  - intros chat_input. unfold chat_tab.
    destruct chat_input as [[|c p]|].
    + exists []. rewrite app_nil_r. auto.
    + eexists. split; [reflexivity|]. right.
      exists (String c p), (content (assistant_message (String c p))).
      split; [done|]. unfold assistant_message.
      by destruct (agent_invoke _).
    + exists []. rewrite app_nil_r. auto.
  - rewrite Hhist. generalize (sent_prompts inputs). intros prompts.
    induction prompts as [|p prompts IH]; intros i m; [done|].
    simpl. unfold exchange at 1. simpl.
    destruct i as [|[|i]]; simpl.
    + by intros [= <-].
    + intros [= <-]. unfold assistant_message. by destruct (agent_invoke _).
    + intros H. by apply IH in H.
Qed.

(** ** The two scripts together *)

(** X20. What is ingested can be found: over the database that a run of the
    main block leaves, the box query, when it reaches the engine, returns
    the (float_id, latitude, longitude, timestamp) of every row that the run
    has added and whose point of longitude and latitude intersects the
    box. *)
Theorem ingested_rows_are_found w min_lon min_lat max_lon max_lat cache :
  cached (SpatialQuery min_lon min_lat max_lon max_lat) cache = None →
  ∃ new result_df,
    stored_rows (db (snd (main w))) = stored_rows (db w) ++ new ∧
    fst (run_query (SpatialQuery min_lon min_lat max_lon max_lat)
           {| app_db := db (snd (main w)); cache_data := cache |}) = Ok result_df ∧
    ∀ r, r ∈ new →
      ST_Intersects (POINT 4326 (row_longitude r) (row_latitude r))
        (ENVELOPE 4326 min_lon min_lat max_lon max_lat) = true →
      [Str (row_float_id r); Num (row_latitude r); Num (row_longitude r);
       Time (Some (row_timestamp r))] ∈ df_rows result_df.
Proof.
  intros Hmiss.
  destruct (main_storage w) as (evs & new & _ & Hrows & _ & Hnew).
  destruct (table_after_run w) as (t & Ht).
  exists new. eexists. split; [done|].
  unfold run_query, read_sql. simpl. rewrite Hmiss, Ht. simpl.
  split; [reflexivity|]. simpl.
  intros r Hr Hhit.
  assert (row_location r = POINT 4326 (row_longitude r) (row_latitude r)) as Hloc.
  { destruct new as [|r0 new']; [by apply elem_of_nil in Hr|].
    destruct Hnew as (pn & cd & ts & Hread & _ & _ & Hall); [done|].
    destruct (parsed_batch_shaped _ _ _ Hread) as [_ Hshape].
    pose proof (stored_batch_rows _ _ _ Hshape Hall) as Hstored.
    assert (Forall (fun r => row_location r
                             = POINT 4326 (row_longitude r) (row_latitude r))
              (r0 :: new')) as Hder.
    { apply (Forall2_Forall_r _ _ _ _ Hstored).
      apply Forall_forall. by intros row _ r' (id&t'&a&b&p&q&s&_&->). }
    by apply (proj1 (Forall_forall _ _) Hder). }
  apply (list_elem_of_fmap_2 tuple_cells _ (select_list r)).
  apply elem_of_select_spatial. exists r. split; [|split; [|done]].
  - assert (tbl_rows t = stored_rows (db (snd (main w)))) as ->
      by (unfold stored_rows; by rewrite Ht).
    rewrite Hrows. apply elem_of_app. by right.
  - unfold in_envelope. by rewrite Hloc.
Qed.

End Collaborators.

(** ** A failed load can be tried again *)

Lemma select_count_table fid ts d d' :
  argo_measurements d = argo_measurements d' →
  select_count fid ts d = select_count fid ts d'.
Proof. unfold select_count. by intros ->. Qed.

Ltac event_cases H :=
  repeat (apply elem_of_cons in H as [H|H];
          [first [discriminate H | injection H as H]|]);
  try (by apply elem_of_nil in H).

(** X21. A run whose insert was rolled back does not close the dedup gate:
    it leaves the stored rows as they were, and the next run on the same
    file system, with whatever engine, passes the count query and issues the
    insert again, with the same records, in one transaction. *)
Theorem failed_insert_is_retried
    open_dataset decode_utf8 engine_accepts engine_accepts' w evs records :
  events (snd (main open_dataset decode_utf8 engine_accepts w)) = events w ++ evs →
  InsertMany records ∈ evs →
  Rollback ∈ evs →
  stored_rows (db (snd (main open_dataset decode_utf8 engine_accepts w)))
    = stored_rows (db w) ∧
  ∃ fid ts ending,
    (ending = Commit ∨ ending = Rollback) ∧
    events (snd (main open_dataset decode_utf8 engine_accepts'
                   (snd (main open_dataset decode_utf8 engine_accepts w)))) =
      events (snd (main open_dataset decode_utf8 engine_accepts w))
        ++ [HasTable "argo_measurements"; Connect; Begin; SelectCount fid ts;
            InsertMany records; ending; Close].
Proof.
  intros Hev Hins Hrb.
  set (w1 := snd (main open_dataset decode_utf8 engine_accepts w)) in *.
  assert (stored_rows (db w1) = stored_rows (db w) ∧
          ∃ pn cd ts fid n t1,
            read_core_data open_dataset decode_utf8 file_path = Ok (pn, cd) ∧
            empty cd = false ∧
            gate_parameters cd = Ok (ts, fid) ∧
            argo_measurements (db w1) = Some t1 ∧
            select_count fid ts (db w1) = Ok n ∧
            (0 <? n) = false ∧
            make_records (df_columns cd) (df_rows cd) = Ok records)
    as (Hrows & pn & cd & ts & fid & n & t1 & Hread & Hempty & Hgate & Ht1 & Hcount & Hn & Hrec).
  { subst w1. revert Hev. rewrite main_eq. cbv zeta.
    pose proof (stored_rows_ensure_schema w) as Hsch.
    pose proof (events_ensure_schema w) as Hev0.
    assert (∃ t0, argo_measurements (db (snd (ensure_schema w))) = Some t0) as (t0 & Ht0).
    { rewrite ensure_schema_eq. simpl.
      destruct (argo_measurements (db w)) as [t0|] eqn:Hw; simpl; [|by eexists].
      exists t0. by rewrite Hw. }
    assert (∀ ev, ev ∈ schema_events (db w) → ev ≠ Rollback ∧ ∀ r, ev ≠ InsertMany r)
      as Hschema.
    { intros ev. unfold schema_events.
      destruct (argo_measurements (db w)); intros H;
        repeat (apply elem_of_cons in H as [->|H]; [by split|]);
        by apply elem_of_nil in H. }
    set (w0 := snd (ensure_schema w)) in *.
    destruct (read_core_data open_dataset decode_utf8 file_path) as [[pn cd]|e] eqn:Hread.
    2: { simpl. rewrite Hev0. intros Hev%app_inv_head; subst evs.
         by destruct (Hschema _ Hrb). }
    destruct (empty cd) eqn:Hempty.
    { simpl. rewrite Hev0. intros Hev%app_inv_head; subst evs.
      by destruct (Hschema _ Hrb). }
    rewrite with_connect_eq, with_begin_eq, check_and_load_eq.
    destruct (gate_parameters cd) as [[ts fid]|e] eqn:Hgate; simpl.
    2: { rewrite Hev0, <- !app_assoc. intros Hev%app_inv_head; subst evs.
         apply elem_of_app in Hins as [Hins|Hins];
           [by destruct (Hschema _ Hins) as [_ H]; destruct (H records)|].
         event_cases Hins. }
    destruct (select_count fid ts (db w0)) as [n|e] eqn:Hcount; simpl.
    2: { rewrite Hev0, <- !app_assoc. intros Hev%app_inv_head; subst evs.
         apply elem_of_app in Hins as [Hins|Hins];
           [by destruct (Hschema _ Hins) as [_ H]; destruct (H records)|].
         event_cases Hins. }
    destruct (0 <? n) eqn:Hn; simpl.
    { rewrite Hev0, <- !app_assoc. intros Hev%app_inv_head; subst evs.
      apply elem_of_app in Hins as [Hins|Hins];
        [by destruct (Hschema _ Hins) as [_ H]; destruct (H records)|].
      event_cases Hins. }
    destruct (make_records (df_columns cd) (df_rows cd)) as [records'|e] eqn:Hrec; simpl.
    2: { rewrite Hev0, <- !app_assoc. intros Hev%app_inv_head; subst evs.
         apply elem_of_app in Hins as [Hins|Hins];
           [by destruct (Hschema _ Hins) as [_ H]; destruct (H records)|].
         event_cases Hins. }
    destruct (insert_rows engine_accepts records' (db w0)) as [[[]|e] d] eqn:Hinsert; simpl.
    { rewrite Hev0, <- !app_assoc. intros Hev%app_inv_head; subst evs.
      apply elem_of_app in Hrb as [Hrb|Hrb]; [by destruct (Hschema _ Hrb)|].
      event_cases Hrb. }
    rewrite Hev0, <- !app_assoc. intros Hev%app_inv_head; subst evs.
    apply elem_of_app in Hins as [Hins|Hins];
      [by destruct (Hschema _ Hins) as [_ H]; destruct (H records)|].
    event_cases Hins. subst records'.
    split.
    { unfold stored_rows at 1. simpl. rewrite <- Hsch. unfold stored_rows. done. }
    exists pn, cd, ts, fid, n, t0.
    split; [done|]. split; [done|]. split; [done|]. split; [done|].
    split; [|by split].
    rewrite <- Hcount. by apply select_count_table. }
  split; [done|].
  exists fid, ts.
  rewrite main_eq, ensure_schema_eq, Ht1, Hread. cbv zeta. rewrite Hempty.
  rewrite with_connect_eq, with_begin_eq, check_and_load_eq, Hgate. simpl.
  rewrite Hcount. cbv zeta. rewrite Hn, Hrec. simpl.
  destruct (insert_rows engine_accepts' records _) as [[[]|e'] d']; simpl.
  - exists Commit. split; [by left|]. by rewrite <- !app_assoc.
  - exists Rollback. split; [by right|]. by rewrite <- !app_assoc.
Qed.

(* ================================================================== *)
(** * Runs on the sample file, and the theorems at the sample inputs *)
(* ================================================================== *)

(** The first run on the sample file stores the two complete samples. *)
Example first_run_stores_the_batch :
  stored_rows (db (snd (main sample_fs ascii_decode varchar20 fresh))) = [stored_1; stored_2] ∧
  stdout (snd (main sample_fs ascii_decode varchar20 fresh)) =
    [Table_not_found_Creating_table; Table_created_successfully;
     Opening_NetCDF_file "data/R2902347_001.nc"; Successfully_parsed 2 "2902347";
     Inserting_new_records 2; Data_insertion_complete].
Proof. split; vm_compute; reflexivity. Qed.

(** An insert that fails at its second row: the first row is in the table
    when the statement raises, and gone after the rollback. *)
Example insert_fails_partway :
  let records := record_of <$> df_rows sample_batch in
  stored_rows (snd (insert_rows only_timestamp_100 records (db with_table))) = [stored_1] ∧
  fst (insert_rows only_timestamp_100 records (db with_table)) = Raise IntegrityError ∧
  stored_rows (db (snd (main sample_fs ascii_decode only_timestamp_100 fresh))) = [] ∧
  last (events (snd (main sample_fs ascii_decode only_timestamp_100 fresh))) = Some Close ∧
  Rollback ∈ events (snd (main sample_fs ascii_decode only_timestamp_100 fresh)) ∧
  last (stdout (snd (main sample_fs ascii_decode only_timestamp_100 fresh)))
    = Some (An_error_occurred_during_ingestion IntegrityError).
Proof.
  cbv zeta. split; [vm_compute; reflexivity|]. split; [vm_compute; reflexivity|].
  split; [vm_compute; reflexivity|]. split; [vm_compute; reflexivity|].
  split; [|vm_compute; reflexivity].
  assert (∃ l l', events (snd (main sample_fs ascii_decode only_timestamp_100 fresh))
                  = l ++ Rollback :: l') as (l & l' & ->).
  { eexists (_ :: _ :: _ :: _ :: _ :: _ :: []), _. vm_compute. reflexivity. }
  apply elem_of_app. right. apply elem_of_cons. by left.
Qed.

(** C3 as stated fails: after a load that is rolled back, storage is not in
    the state from before the load.  The table is, with no row of the batch;
    the sequence behind the surrogate key is not, and it shows: the same
    load that stores rows 1 and 2 from the state before stores rows 3 and 4
    after the load that was rolled back. *)
Lemma rolled_back_load_changes_storage :
  fst (with_begin (check_and_load only_timestamp_100 sample_batch) with_table)
    = Raise IntegrityError ∧
  argo_measurements
    (db (snd (with_begin (check_and_load only_timestamp_100 sample_batch) with_table)))
    = argo_measurements (db with_table) ∧
  db (snd (with_begin (check_and_load only_timestamp_100 sample_batch) with_table))
    ≠ db with_table ∧
  row_id <$> stored_rows
    (db (snd (with_begin (check_and_load varchar20 sample_batch) with_table)))
    = [1; 2] ∧
  row_id <$> stored_rows
    (db (snd (with_begin (check_and_load varchar20 sample_batch)
                (snd (with_begin (check_and_load only_timestamp_100 sample_batch)
                        with_table)))))
    = [3; 4].
Proof.
  split; [vm_compute; reflexivity|]. split; [vm_compute; reflexivity|].
  split; [vm_compute; intros H; discriminate H|].
  split; vm_compute; reflexivity.
Qed.

(** C1 at the sample file: the first run on a fresh database adds rows, and
    the second run is the no-op that the theorem describes. *)
Lemma ingestion_idempotent_witness :
  (length (stored_rows (db fresh))
   < length (stored_rows (db (snd (main sample_fs ascii_decode varchar20 fresh)))))%nat ∧
  ∃ fid ts n,
    select_count fid ts (db (snd (main sample_fs ascii_decode varchar20 fresh))) = Ok n ∧
    0 < n ∧
    fst (main sample_fs ascii_decode varchar20
           (snd (main sample_fs ascii_decode varchar20 fresh))) = Ok tt ∧
    events (snd (main sample_fs ascii_decode varchar20
                   (snd (main sample_fs ascii_decode varchar20 fresh)))) =
      events (snd (main sample_fs ascii_decode varchar20 fresh))
        ++ [HasTable "argo_measurements"; Connect; Begin; SelectCount fid ts; Commit; Close] ∧
    db (snd (main sample_fs ascii_decode varchar20
               (snd (main sample_fs ascii_decode varchar20 fresh))))
      = db (snd (main sample_fs ascii_decode varchar20 fresh)) ∧
    length (stored_rows (db (snd (main sample_fs ascii_decode varchar20
                                    (snd (main sample_fs ascii_decode varchar20 fresh))))))
      = length (stored_rows (db (snd (main sample_fs ascii_decode varchar20 fresh)))).
Proof.
  assert (length (stored_rows (db fresh))
          < length (stored_rows (db (snd (main sample_fs ascii_decode varchar20 fresh)))))%nat
    as H by (vm_compute; lia).
  split; [exact H|].
  exact (ingestion_idempotent sample_fs ascii_decode varchar20 fresh H).
Defined.

(** C2 at the sample batch and a database whose table is empty: the count is
    zero and the gate proceeds. *)
Lemma dedup_gate_decides_witness :
  read_core_data sample_fs ascii_decode file_path = Ok ("2902347", sample_batch) ∧
  df_rows sample_batch ≠ [] ∧
  gate_parameters sample_batch = Ok (Time (Some 70), Str "2902347") ∧
  select_count (Str "2902347") (Time (Some 70)) (db with_table) = Ok 0 ∧
  ∃ t m,
    argo_measurements (db with_table) = Some t ∧
    Str "2902347" = Str "2902347" ∧ Time (Some 70) = Time (Some m) ∧
    (∀ row, row ∈ df_rows sample_batch →
       ∃ x, row_getitem batch_labels row "timestamp" = Ok (Time (Some x)) ∧ m ≤ x) ∧
    (∃ row, row ∈ df_rows sample_batch ∧
       row_getitem batch_labels row "timestamp" = Ok (Time (Some m))) ∧
    0 = Z.of_nat (length (List.filter
          (fun r => bool_decide (row_float_id r = "2902347")
                    && (m <=? row_timestamp r)) (tbl_rows t))) ∧
    let w1 := add_events [SelectCount (Str "2902347") (Time (Some 70))] with_table in
    (0 < 0 ↔
     check_and_load varchar20 sample_batch with_table =
       (Ok tt, add_stdout [Data_already_exists_Skipping_insertion (Str "2902347")] w1)) ∧
    (¬ 0 < 0 →
     let records := record_of <$> df_rows sample_batch in
     let w3 := add_events [InsertMany records]
                 (add_stdout [Inserting_new_records (len sample_batch)] w1) in
     length records = len sample_batch ∧
     check_and_load varchar20 sample_batch with_table =
       match insert_rows varchar20 records (db with_table) with
       | (Ok _, d) => (Ok tt, add_stdout [Data_insertion_complete] (set_db d w3))
       | (Raise e, d) => (Raise e, set_db d w3)
       end).
Proof.
  assert (read_core_data sample_fs ascii_decode file_path = Ok ("2902347", sample_batch))
    as H1 by (vm_compute; reflexivity).
  assert (df_rows sample_batch ≠ []) as H2 by (simpl; discriminate).
  assert (gate_parameters sample_batch = Ok (Time (Some 70), Str "2902347"))
    as H3 by (vm_compute; reflexivity).
  assert (select_count (Str "2902347") (Time (Some 70)) (db with_table) = Ok 0)
    as H4 by (vm_compute; reflexivity).
  split; [exact H1|]. split; [exact H2|]. split; [exact H3|]. split; [exact H4|].
  exact (dedup_gate_decides sample_fs ascii_decode varchar20 file_path "2902347"
           sample_batch with_table (Time (Some 70)) (Str "2902347") 0 H1 H2 H3 H4).
Defined.

(** C4 at the sample file: the sample without salinity is not in the batch. *)
Lemma parse_completeness_filter_witness :
  parse_argo_file sample_fs ascii_decode file_path fresh =
    (Ok (Some sample_batch),
     add_stdout [Opening_NetCDF_file file_path; Successfully_parsed 2 "2902347"] fresh) ∧
  ∃ ds platform_number,
    sample_fs file_path = Ok ds ∧
    platform_number_of ascii_decode ds = Ok platform_number ∧
    let labels := df_columns (to_dataframe ds) in
    let sources := df_rows (to_dataframe ds) in
    (∀ row name, row ∈ df_rows sample_batch → name ∈ scalar_fields →
       ∃ c, row_getitem (df_columns sample_batch) row name = Ok c ∧ isna c = false) ∧
    df_rows sample_batch =
      batch_row labels platform_number
        <$> List.filter (fun src => negb (has_missing labels src)) sources ∧
    (∀ src v, src ∈ sources → v ∈ core_variables →
       isna (source_cell labels src v) = true →
       batch_row labels platform_number src ∉ df_rows sample_batch).
Proof.
  assert (parse_argo_file sample_fs ascii_decode file_path fresh =
            (Ok (Some sample_batch),
             add_stdout [Opening_NetCDF_file file_path; Successfully_parsed 2 "2902347"] fresh))
    as H by (vm_compute; reflexivity).
  split; [exact H|].
  exact (parse_completeness_filter sample_fs ascii_decode file_path fresh sample_batch _ H).
Defined.

(** C7 at a file that opens and has no variable PSAL_ADJUSTED. *)
Lemma parse_failure_recovery_witness :
  cannot_parse fs_without_salinity file_path ∧
  ∃ e,
    read_core_data fs_without_salinity ascii_decode file_path = Raise e ∧
    (∀ e', fs_without_salinity file_path = Raise e' → e = e') ∧
    parse_argo_file fs_without_salinity ascii_decode file_path fresh =
      (Ok None,
       add_stdout [Opening_NetCDF_file file_path; Error_parsing_file file_path e] fresh) ∧
    (file_path = file_path →
       main fs_without_salinity ascii_decode varchar20 fresh =
         (Ok tt,
          add_stdout [Opening_NetCDF_file file_path; Error_parsing_file file_path e]
            (snd (ensure_schema fresh))) ∧
       events (snd (main fs_without_salinity ascii_decode varchar20 fresh))
         = events (snd (ensure_schema fresh)) ∧
       stored_rows (db (snd (main fs_without_salinity ascii_decode varchar20 fresh)))
         = stored_rows (db fresh)).
Proof.
  assert (cannot_parse fs_without_salinity file_path) as H.
  { intros ds [= <-]. right. exists "PSAL_ADJUSTED". split; [|reflexivity].
    unfold core_variables. rewrite !elem_of_cons. auto 10. }
  split; [exact H|].
  exact (parse_failure_recovery fs_without_salinity ascii_decode varchar20 file_path fresh H).
Defined.

(** The printed cause in that run. *)
Example missing_variable_is_reported :
  stdout (snd (main fs_without_salinity ascii_decode varchar20 fresh)) =
    [Table_not_found_Creating_table; Table_created_successfully;
     Opening_NetCDF_file "data/R2902347_001.nc";
     Error_parsing_file "data/R2902347_001.nc" (KeyError_not_in_index ["PSAL_ADJUSTED"])].
Proof. vm_compute. reflexivity. Qed.

(** C7 as stated fails: the value that [parse_argo_file] returns on a failure
    does not capture the cause.  No function recovers the cause from the
    returned value, since two files that fail to open for different reasons
    give the same value, None. *)
Lemma parse_failure_value_hides_cause :
  ¬ ∃ cause_of : option DataFrame → exn,
      ∀ (open_dataset : string → outcome Dataset) path w e,
        open_dataset path = Raise e →
        ∃ v, fst (parse_argo_file open_dataset ascii_decode path w) = Ok v ∧
             cause_of v = e.
Proof.
  intros [cause_of H].
  destruct (H (fun _ => Raise (OpenError "No such file or directory")) file_path fresh _ eq_refl)
    as (v1 & Hv1 & Hc1).
  destruct (H (fun _ => Raise (OpenError "Permission denied")) file_path fresh _ eq_refl)
    as (v2 & Hv2 & Hc2).
  vm_compute in Hv1, Hv2. injection Hv1 as <-. injection Hv2 as <-.
  rewrite Hc1 in Hc2. discriminate Hc2.
Qed.

(** C10 at a missing file and a database that has the table. *)
Lemma no_batch_no_storage_traffic_witness :
  (fst (parse_argo_file no_file ascii_decode file_path (snd (ensure_schema with_table)))
     = Ok None ∨
   ∃ argo_data,
     fst (parse_argo_file no_file ascii_decode file_path (snd (ensure_schema with_table)))
       = Ok (Some argo_data) ∧
     empty argo_data = true) ∧
  fst (main no_file ascii_decode varchar20 with_table) = Ok tt ∧
  events (snd (main no_file ascii_decode varchar20 with_table))
    = events with_table ++ schema_events (db with_table) ∧
  db (snd (main no_file ascii_decode varchar20 with_table))
    = db (snd (ensure_schema with_table)) ∧
  stored_rows (db (snd (main no_file ascii_decode varchar20 with_table)))
    = stored_rows (db with_table) ∧
  (is_Some (argo_measurements (db with_table)) →
     db (snd (main no_file ascii_decode varchar20 with_table)) = db with_table) ∧
  (argo_measurements (db with_table) = None →
     argo_measurements (db (snd (main no_file ascii_decode varchar20 with_table)))
       = Some created_table).
Proof.
  assert (fst (parse_argo_file no_file ascii_decode file_path (snd (ensure_schema with_table)))
            = Ok None ∨
          ∃ argo_data,
            fst (parse_argo_file no_file ascii_decode file_path (snd (ensure_schema with_table)))
              = Ok (Some argo_data) ∧
            empty argo_data = true) as H.
  { left. vm_compute. reflexivity. }
  split; [exact H|].
  exact (no_batch_no_storage_traffic no_file ascii_decode varchar20 with_table H).
Defined.

(** C10 as stated fails: parsing fails and the run has still changed
    storage, for the schema manager, which runs before the parser, has
    created the measurement table. *)
Lemma failed_parse_run_changes_storage :
  fst (parse_argo_file no_file ascii_decode file_path (snd (ensure_schema fresh))) = Ok None ∧
  db fresh = {| argo_measurements := None; id_seq := 1 |} ∧
  db (snd (main no_file ascii_decode varchar20 fresh))
    = {| argo_measurements := Some created_table; id_seq := 1 |} ∧
  db (snd (main no_file ascii_decode varchar20 fresh)) ≠ db fresh.
Proof.
  split; [vm_compute; reflexivity|]. split; [reflexivity|].
  split; [vm_compute; reflexivity|].
  vm_compute. intros H. discriminate H.
Qed.

(** C9 at the box from (79, 9) to (82, 12) over that table. *)
Lemma spatial_query_contract_witness :
  cached (SpatialQuery (fl 79) (fl 9) (fl 82) (fl 12)) (cache_data sample_app) = None ∧
  argo_measurements (app_db sample_app) = Some sample_table ∧
  (∀ corner ring others,
     drawn_query (([fl 79; fl 9] :: corner :: [fl 82; fl 12] :: ring) :: others)
       = Ok (SpatialQuery (fl 79) (fl 9) (fl 82) (fl 12))) ∧
  ∃ tuples,
    fst (run_query bbox_intersects (SpatialQuery (fl 79) (fl 9) (fl 82) (fl 12)) sample_app)
      = Ok {| df_columns := ["float_id"; "latitude"; "longitude"; "timestamp"];
              df_rows := tuple_cells <$> tuples |} ∧
    NoDup (tuple_cells <$> tuples) ∧
    (∀ tup, tup ∈ tuples ↔
       ∃ r, r ∈ tbl_rows sample_table ∧
            in_envelope bbox_intersects (fl 79) (fl 9) (fl 82) (fl 12) r ∧
            tup = (row_float_id r, row_latitude r, row_longitude r, row_timestamp r)) ∧
    StronglySorted (fun a b => tuple_timestamp b ≤ tuple_timestamp a) tuples.
Proof.
  assert (cached (SpatialQuery (fl 79) (fl 9) (fl 82) (fl 12)) (cache_data sample_app) = None)
    as H1 by reflexivity.
  assert (argo_measurements (app_db sample_app) = Some sample_table) as H2 by reflexivity.
  split; [exact H1|]. split; [exact H2|].
  exact (spatial_query_contract bbox_intersects (fl 79) (fl 9) (fl 82) (fl 12)
           sample_app sample_table H1 H2).
Defined.

(** The result of that query: the two distinct tuples inside the box, the
    later one first; and the same, stale, result from the cache after the
    table has changed. *)
Example spatial_query_result :
  fst (run_query bbox_intersects (SpatialQuery (fl 79) (fl 9) (fl 82) (fl 12)) sample_app)
    = Ok {| df_columns := ["float_id"; "latitude"; "longitude"; "timestamp"];
            df_rows := [ [Str "2902347"; Num (fl 10); Num (fl 80); Time (Some 100)];
                         [Str "2902347"; Num (fl 11); Num (fl 81); Time (Some 70)] ] |}.
Proof. vm_compute. reflexivity. Qed.

(** The tab, from the drawn rectangle to what it shows. *)
Example explore_by_map_shows_results :
  fst (explore_by_map bbox_intersects
         (Some [[ [fl 79; fl 9]; [fl 79; fl 12]; [fl 82; fl 12]; [fl 82; fl 9]; [fl 79; fl 9] ]])
         sample_app)
    = Ok (Some (Results
        {| df_columns := ["float_id"; "latitude"; "longitude"; "timestamp"];
           df_rows := [ [Str "2902347"; Num (fl 10); Num (fl 80); Time (Some 100)];
                        [Str "2902347"; Num (fl 11); Num (fl 81); Time (Some 70)] ] |})).
Proof. vm_compute. reflexivity. Qed.

Example cached_result_is_kept :
  let q := SpatialQuery (fl 79) (fl 9) (fl 82) (fl 12) in
  let s1 := snd (run_query bbox_intersects q sample_app) in
  let s2 := {| app_db := {| argo_measurements := Some created_table; id_seq := 5 |};
               cache_data := cache_data s1 |} in
  fst (run_query bbox_intersects q s2) = fst (run_query bbox_intersects q sample_app).
Proof. vm_compute. reflexivity. Qed.

(* ================================================================== *)
(** * The further properties at the sample inputs *)
(* ================================================================== *)

(** X3 at a file that lacks TEMP_ADJUSTED and PSAL_ADJUSTED: both are named,
    in this order. *)
Lemma parse_reports_every_missing_variable_witness :
  fs_without_two_variables file_path = Ok file_without_two_variables ∧
  platform_number_of ascii_decode file_without_two_variables = Ok "2902347" ∧
  "TEMP_ADJUSTED" ∈ core_variables ∧
  get_loc "TEMP_ADJUSTED" (df_columns (to_dataframe file_without_two_variables)) = None ∧
  List.filter
    (fun v => negb (is_column (df_columns (to_dataframe file_without_two_variables)) v))
    core_variables = ["TEMP_ADJUSTED"; "PSAL_ADJUSTED"] ∧
  parse_argo_file fs_without_two_variables ascii_decode file_path fresh =
    (Ok None,
     add_stdout
       [Opening_NetCDF_file file_path;
        Error_parsing_file file_path
          (KeyError_not_in_index
             (List.filter
                (fun v => negb (is_column
                                  (df_columns (to_dataframe file_without_two_variables)) v))
                core_variables))] fresh).
Proof.
  assert (fs_without_two_variables file_path = Ok file_without_two_variables)
    as H by reflexivity.
  assert (platform_number_of ascii_decode file_without_two_variables = Ok "2902347")
    as Hpn by (vm_compute; reflexivity).
  assert ("TEMP_ADJUSTED" ∈ core_variables) as Hin
    by (unfold core_variables; do 4 right; left).
  assert (get_loc "TEMP_ADJUSTED" (df_columns (to_dataframe file_without_two_variables))
          = None) as Hloc by (vm_compute; reflexivity).
  split; [exact H|]. split; [exact Hpn|]. split; [exact Hin|]. split; [exact Hloc|].
  split; [vm_compute; reflexivity|].
  exact (proj2 (parse_reports_every_missing_variable fs_without_two_variables
                  ascii_decode file_path file_without_two_variables fresh H)
           "2902347" "TEMP_ADJUSTED" Hpn Hin Hloc).
Defined.

(** X4 at the sample file. *)
Lemma parsed_batch_is_single_float_witness :
  parse_argo_file sample_fs ascii_decode file_path fresh =
    (Ok (Some sample_batch),
     add_stdout [Opening_NetCDF_file file_path; Successfully_parsed 2 "2902347"] fresh) ∧
  ∃ ds b values s,
    sample_fs file_path = Ok ds ∧
    PLATFORM_NUMBER ds = Some (Bytes b :: values) ∧
    ascii_decode b = Some s ∧
    df_columns sample_batch =
      ["timestamp"; "latitude"; "longitude"; "pressure"; "temperature"; "salinity";
       "float_id"] ∧
    ∀ row, row ∈ df_rows sample_batch →
      length row = 7%nat ∧
      row_getitem (df_columns sample_batch) row "float_id" = Ok (Str (strip s)).
Proof.
  assert (parse_argo_file sample_fs ascii_decode file_path fresh =
            (Ok (Some sample_batch),
             add_stdout [Opening_NetCDF_file file_path; Successfully_parsed 2 "2902347"] fresh))
    as H by (vm_compute; reflexivity).
  split; [exact H|].
  exact (parsed_batch_is_single_float sample_fs ascii_decode file_path fresh sample_batch _ H).
Defined.

(** X5 at the sample file, whose PLATFORM_NUMBER ends with a space. *)
Lemma parsed_float_id_is_trimmed_witness :
  parse_argo_file sample_fs ascii_decode file_path fresh =
    (Ok (Some sample_batch),
     add_stdout [Opening_NetCDF_file file_path; Successfully_parsed 2 "2902347"] fresh) ∧
  ∃ platform_number,
    trimmed platform_number ∧
    ∀ row, row ∈ df_rows sample_batch →
      row_getitem (df_columns sample_batch) row "float_id" = Ok (Str platform_number).
Proof.
  assert (parse_argo_file sample_fs ascii_decode file_path fresh =
            (Ok (Some sample_batch),
             add_stdout [Opening_NetCDF_file file_path; Successfully_parsed 2 "2902347"] fresh))
    as H by (vm_compute; reflexivity).
  split; [exact H|].
  exact (parsed_float_id_is_trimmed sample_fs ascii_decode file_path fresh sample_batch _ H).
Defined.

(** X6 at a database that holds one row: after the run on the sample file,
    which the gate skips, the table is as it was. *)
Lemma run_keeps_the_table_witness :
  argo_measurements (db with_later_row)
    = Some {| tbl_columns := def_columns argo_table; tbl_rows := [stored_later] |} ∧
  ∃ t rows,
    argo_measurements (db (snd (main sample_fs ascii_decode varchar20 with_later_row)))
      = Some t ∧
    tbl_columns t
      = tbl_columns {| tbl_columns := def_columns argo_table; tbl_rows := [stored_later] |} ∧
    tbl_rows t
      = tbl_rows {| tbl_columns := def_columns argo_table; tbl_rows := [stored_later] |}
        ++ rows.
Proof.
  assert (argo_measurements (db with_later_row)
          = Some {| tbl_columns := def_columns argo_table; tbl_rows := [stored_later] |})
    as H by reflexivity.
  split; [exact H|].
  exact (run_keeps_the_table sample_fs ascii_decode varchar20 with_later_row _ H).
Defined.

(** X9 at a database that holds one later row of the sample float and none
    of the rows of the sample batch: the batch is skipped all the same. *)
Lemma covered_batch_is_skipped_witness :
  read_core_data sample_fs ascii_decode file_path = Ok ("2902347", sample_batch) ∧
  gate_parameters sample_batch = Ok (Time (Some 70), Str "2902347") ∧
  stored_later ∈ stored_rows (db with_later_row) ∧
  row_float_id stored_later = "2902347" ∧
  70 ≤ row_timestamp stored_later ∧
  db (snd (main sample_fs ascii_decode varchar20 with_later_row)) = db with_later_row ∧
  events (snd (main sample_fs ascii_decode varchar20 with_later_row)) =
    events with_later_row
      ++ [HasTable "argo_measurements"; Connect; Begin;
          SelectCount (Str "2902347") (Time (Some 70)); Commit; Close].
Proof.
  assert (read_core_data sample_fs ascii_decode file_path = Ok ("2902347", sample_batch))
    as H1 by (vm_compute; reflexivity).
  assert (gate_parameters sample_batch = Ok (Time (Some 70), Str "2902347"))
    as H2 by (vm_compute; reflexivity).
  assert (stored_later ∈ stored_rows (db with_later_row)) as H3 by (simpl; left).
  assert (row_float_id stored_later = "2902347") as H4 by reflexivity.
  assert (70 ≤ row_timestamp stored_later) as H5 by (simpl; lia).
  split; [exact H1|]. split; [exact H2|]. split; [exact H3|]. split; [exact H4|].
  split; [exact H5|].
  exact (covered_batch_is_skipped sample_fs ascii_decode varchar20 with_later_row
           "2902347" sample_batch 70 stored_later H1 H2 H3 H4 H5).
Defined.

(** X11 at the sample box over the sample table. *)
Lemma run_query_repeats_its_result_witness :
  fst (run_query bbox_intersects sample_box sample_app) = Ok sample_result ∧
  ∀ d,
    let s' := {| app_db := d;
                 cache_data := cache_data (snd (run_query bbox_intersects sample_box
                                                  sample_app)) |} in
    run_query bbox_intersects sample_box s' = (Ok sample_result, s').
Proof.
  assert (fst (run_query bbox_intersects sample_box sample_app) = Ok sample_result)
    as H by (vm_compute; reflexivity).
  split; [exact H|].
  exact (run_query_repeats_its_result bbox_intersects sample_box sample_app
           sample_result H).
Defined.

(** X12 at a database without the measurement table. *)
Lemma failed_query_is_asked_again_witness :
  fst (run_query bbox_intersects sample_box app_without_table)
    = Raise (UndefinedTable "argo_measurements") ∧
  snd (run_query bbox_intersects sample_box app_without_table) = app_without_table ∧
  cached sample_box (cache_data app_without_table) = None ∧
  ∀ d,
    fst (run_query bbox_intersects sample_box
           {| app_db := d; cache_data := cache_data app_without_table |})
      = read_sql bbox_intersects sample_box d.
Proof.
  assert (fst (run_query bbox_intersects sample_box app_without_table)
            = Raise (UndefinedTable "argo_measurements"))
    as H by (vm_compute; reflexivity).
  split; [exact H|].
  exact (failed_query_is_asked_again bbox_intersects sample_box app_without_table _ H).
Defined.

(** X13 at a ring of two points. *)
Lemma short_ring_raises_out_of_the_tab_witness :
  (length [[fl 79; fl 9]; [fl 79; fl 12]] < 3)%nat ∧
  explore_by_map bbox_intersects (Some []) sample_app = (Raise IndexError, sample_app) ∧
  ∃ e, (e = IndexError ∨ e = ValueError) ∧
       explore_by_map bbox_intersects (Some ([[fl 79; fl 9]; [fl 79; fl 12]] :: []))
         sample_app = (Raise e, sample_app).
Proof.
  assert (length [[fl 79; fl 9]; [fl 79; fl 12]] < 3)%nat as H by (simpl; lia).
  split; [exact H|].
  exact (short_ring_raises_out_of_the_tab bbox_intersects sample_app
           [[fl 79; fl 9]; [fl 79; fl 12]] [] H).
Defined.

(** X14 at a database without the measurement table. *)
Lemma database_error_is_shown_witness :
  cached (SpatialQuery (fl 79) (fl 9) (fl 82) (fl 12)) (cache_data app_without_table) = None ∧
  argo_measurements (app_db app_without_table) = None ∧
  explore_by_map bbox_intersects
    (Some (([fl 79; fl 9] :: [fl 79; fl 12] :: [fl 82; fl 12]
            :: [[fl 82; fl 9]; [fl 79; fl 9]]) :: [])) app_without_table
  = (Ok (Some (A_database_error_occurred (UndefinedTable "argo_measurements"))),
     app_without_table).
Proof.
  assert (cached (SpatialQuery (fl 79) (fl 9) (fl 82) (fl 12))
            (cache_data app_without_table) = None) as H1 by reflexivity.
  assert (argo_measurements (app_db app_without_table) = None) as H2 by reflexivity.
  split; [exact H1|]. split; [exact H2|].
  exact (database_error_is_shown bbox_intersects app_without_table
           (fl 79) (fl 9) (fl 82) (fl 12) [fl 79; fl 12] [[fl 82; fl 9]; [fl 79; fl 9]] []
           H1 H2).
Defined.

(** X15 at the sample box over the sample table. *)
Lemma no_floats_found_iff_witness :
  cached (SpatialQuery (fl 79) (fl 9) (fl 82) (fl 12)) (cache_data sample_app) = None ∧
  argo_measurements (app_db sample_app) = Some sample_table ∧
  let shown :=
    fst (explore_by_map bbox_intersects
           (Some (([fl 79; fl 9] :: [fl 79; fl 12] :: [fl 82; fl 12]
                   :: [[fl 82; fl 9]; [fl 79; fl 9]]) :: [])) sample_app) in
  (shown = Ok (Some No_floats_found) ↔
   ∀ r, r ∈ tbl_rows sample_table →
        ¬ in_envelope bbox_intersects (fl 79) (fl 9) (fl 82) (fl 12) r) ∧
  (shown ≠ Ok (Some No_floats_found) →
   ∃ result_df, shown = Ok (Some (Results result_df)) ∧ df_rows result_df ≠ []).
Proof.
  assert (cached (SpatialQuery (fl 79) (fl 9) (fl 82) (fl 12)) (cache_data sample_app) = None)
    as H1 by reflexivity.
  assert (argo_measurements (app_db sample_app) = Some sample_table) as H2 by reflexivity.
  split; [exact H1|]. split; [exact H2|].
  exact (no_floats_found_iff bbox_intersects sample_app sample_table
           (fl 79) (fl 9) (fl 82) (fl 12) [fl 79; fl 12] [[fl 82; fl 9]; [fl 79; fl 9]] []
           H1 H2).
Defined.

(** X16 at the sample box over the sample table: two measurements of one
    float. *)
Lemma metrics_of_a_result_witness :
  argo_measurements (app_db sample_app) = Some sample_table ∧
  read_sql bbox_intersects (SpatialQuery (fl 79) (fl 9) (fl 82) (fl 12)) (app_db sample_app)
    = Ok sample_result ∧
  ∃ panel,
    results_panel sample_result = Ok panel ∧
    total_measurements panel = length (df_rows sample_result) ∧
    floats_found panel = length (float_options panel) ∧
    (floats_found panel ≤ total_measurements panel)%nat ∧
    NoDup (float_options panel) ∧
    (∀ c, c ∈ float_options panel ↔
       ∃ r, r ∈ tbl_rows sample_table ∧
            in_envelope bbox_intersects (fl 79) (fl 9) (fl 82) (fl 12) r ∧
            c = Str (row_float_id r)).
Proof.
  assert (argo_measurements (app_db sample_app) = Some sample_table) as H1 by reflexivity.
  assert (read_sql bbox_intersects (SpatialQuery (fl 79) (fl 9) (fl 82) (fl 12))
            (app_db sample_app) = Ok sample_result) as H2 by (vm_compute; reflexivity).
  split; [exact H1|]. split; [exact H2|].
  exact (metrics_of_a_result bbox_intersects (fl 79) (fl 9) (fl 82) (fl 12)
           (app_db sample_app) sample_table sample_result H1 H2).
Defined.

(** The panel of that result. *)
Example sample_panel :
  results_panel sample_result =
    Ok {| floats_found := 1; total_measurements := 2;
          float_options := [Str "2902347"] |}.
Proof. vm_compute. reflexivity. Qed.

(** X18 at a profile of the sample float, with the selector left at its
    first option: temperature is plotted against pressure. *)
Lemma plot_shows_a_measured_variable_witness :
  (∀ options x, first_option options = Some x → x ∈ options) ∧
  ∃ fig,
    create_profile_plot first_option as_written sample_profile "pressure" = Plotted fig ∧
    fig_x fig = "temperature" ∧
    fig_data fig = sample_profile ∧
    fig_x fig ∈ df_columns sample_profile ∧
    (fig_x fig ∉ not_plotted) ∧
    fig_x fig ≠ "" ∧
    fig_y fig = "pressure" ∧
    fig_yaxis_autorange fig = Some "reversed" ∧
    fig_labels fig !! "pressure" = Some "Pressure (dbar)".
Proof.
  assert (∀ options x, first_option options = Some x → x ∈ options) as H1.
  { intros [|o options] x H; [discriminate H|]. injection H as <-. left. }
  split; [exact H1|].
  eexists. split; [vm_compute; reflexivity|]. split; [reflexivity|].
  exact (plot_shows_a_measured_variable first_option as_written sample_profile "pressure"
           _ H1 eq_refl).
Defined.

(** X20 at the first run on the sample file and the sample box. *)
Lemma ingested_rows_are_found_witness :
  cached (SpatialQuery (fl 79) (fl 9) (fl 82) (fl 12)) [] = None ∧
  ∃ new result_df,
    stored_rows (db (snd (main sample_fs ascii_decode varchar20 fresh)))
      = stored_rows (db fresh) ++ new ∧
    fst (run_query bbox_intersects (SpatialQuery (fl 79) (fl 9) (fl 82) (fl 12))
           {| app_db := db (snd (main sample_fs ascii_decode varchar20 fresh));
              cache_data := [] |}) = Ok result_df ∧
    ∀ r, r ∈ new →
      bbox_intersects (POINT 4326 (row_longitude r) (row_latitude r))
        (ENVELOPE 4326 (fl 79) (fl 9) (fl 82) (fl 12)) = true →
      [Str (row_float_id r); Num (row_latitude r); Num (row_longitude r);
       Time (Some (row_timestamp r))] ∈ df_rows result_df.
Proof.
  assert (cached (SpatialQuery (fl 79) (fl 9) (fl 82) (fl 12)) [] = None)
    as H by reflexivity.
  split; [exact H|].
  exact (ingested_rows_are_found sample_fs ascii_decode varchar20 bbox_intersects fresh
           (fl 79) (fl 9) (fl 82) (fl 12) [] H).
Defined.

(** The rows of the first run, read back through the sample box. *)
Example ingest_then_query :
  fst (run_query bbox_intersects sample_box
         {| app_db := db (snd (main sample_fs ascii_decode varchar20 fresh));
            cache_data := [] |}) = Ok sample_result.
Proof. vm_compute. reflexivity. Qed.

(** X21 at the run whose insert fails at its second row, followed by a run
    with an engine that takes both rows. *)
Lemma failed_insert_is_retried_witness :
  events (snd (main sample_fs ascii_decode only_timestamp_100 fresh))
    = events fresh ++ failed_run_events ∧
  InsertMany sample_records ∈ failed_run_events ∧
  Rollback ∈ failed_run_events ∧
  stored_rows (db (snd (main sample_fs ascii_decode only_timestamp_100 fresh)))
    = stored_rows (db fresh) ∧
  ∃ fid ts ending,
    (ending = Commit ∨ ending = Rollback) ∧
    events (snd (main sample_fs ascii_decode varchar20
                   (snd (main sample_fs ascii_decode only_timestamp_100 fresh)))) =
      events (snd (main sample_fs ascii_decode only_timestamp_100 fresh))
        ++ [HasTable "argo_measurements"; Connect; Begin; SelectCount fid ts;
            InsertMany sample_records; ending; Close].
Proof.
  assert (events (snd (main sample_fs ascii_decode only_timestamp_100 fresh))
          = events fresh ++ failed_run_events) as H1 by (vm_compute; reflexivity).
  assert (InsertMany sample_records ∈ failed_run_events) as H2
    by (unfold failed_run_events; do 5 right; left).
  assert (Rollback ∈ failed_run_events) as H3
    by (unfold failed_run_events; do 6 right; left).
  split; [exact H1|]. split; [exact H2|]. split; [exact H3|].
  exact (failed_insert_is_retried sample_fs ascii_decode only_timestamp_100 varchar20
           fresh failed_run_events sample_records H1 H2 H3).
Defined.

(** The second run of that witness stores the batch. *)
Example retry_stores_the_batch :
  stored_rows (db (snd (main sample_fs ascii_decode varchar20
                          (snd (main sample_fs ascii_decode only_timestamp_100 fresh)))))
    = [ {| row_id := 3; row_float_id := "2902347"; row_timestamp := 100;
           row_latitude := fl 10; row_longitude := fl 80; row_pressure := fl 5;
           row_temperature := fl 20; row_salinity := fl 35;
           row_location := POINT 4326 (fl 80) (fl 10) |};
        {| row_id := 4; row_float_id := "2902347"; row_timestamp := 70;
           row_latitude := fl 11; row_longitude := fl 81; row_pressure := fl 7;
           row_temperature := fl 18; row_salinity := fl 34;
           row_location := POINT 4326 (fl 81) (fl 11) |} ].
Proof. vm_compute. reflexivity. Qed.
